(** * NNabla communicator utilities ([d3net/semantic-segmentation/comm.py])

    A shallow embedding of [comm.py]: the [AttrDict] configuration
    dictionary, [create_float_context], [CommunicatorWrapper] and
    [init_nnabla], followed by the properties of the module.

    The module is glue code over the NNabla framework.  Everything the
    framework does (building a communicator, all-reduce, solvers, extension
    contexts) is an external call: the embedding records each call in a
    trace and takes its answer (a value or a raised exception) from an
    arbitrary handler, so every theorem holds whatever the framework
    answers. *)

From Stdlib Require Import ZArith Ascii String Decimal DecimalString DecimalZ Lia.
From stdpp Require Import base list strings.

Local Open Scope Z_scope.

(** ** Python built-ins used by [comm.py] *)

Module Py.

(** Exception classes.  [except Exception] catches every class derived
    from [Exception]; [KeyboardInterrupt] and [SystemExit] derive from
    [BaseException] only. *)
Inductive ExcClass : Type :=
| AttributeError
| ValueError
| IndexError
| KeyError
| TypeError
| RuntimeError
| ImportError
| KeyboardInterrupt
| SystemExit.

Definition is_Exception (c : ExcClass) : bool :=
  match c with
  | KeyboardInterrupt | SystemExit => false
  | _ => true
  end.

Record PyExc : Type := mkExc { exc_class : ExcClass; exc_msg : string }.

(** The result of evaluating an expression: a value, or a raised
    exception. *)
Inductive Outcome (A : Type) : Type :=
| Ok (a : A)
| Raised (e : PyExc).
Arguments Ok {A} a.
Arguments Raised {A} e.

(** *** Strings *)

(** [sep.join(parts)] *)
Fixpoint join (sep : string) (parts : list string) : string :=
  match parts with
  | [] => ""
  | [p] => p
  | p :: rest => p +:+ sep +:+ join sep rest
  end.

(** [s.split(sep)] for a one-character separator: the list is never
    empty. *)
Fixpoint split (sep : ascii) (s : string) : list string :=
  match s with
  | EmptyString => [""]
  | String c r =>
      if Ascii.eqb c sep then "" :: split sep r
      else match split sep r with
           | h :: t => String c h :: t
           | [] => [String c ""]
           end
  end.

(** [xs[i]] on a list, for [i >= 0]. *)
Definition index {A} (xs : list A) (i : nat) : Outcome A :=
  match xs !! i with
  | Some x => Ok x
  | None => Raised (mkExc IndexError "list index out of range")
  end.

(** ["...'{}'".format(x)] as used by [AttrDict.__getattr__]. *)
Definition no_chain_message (chain : string) : string :=
  "dict (AttrDict) has no chain of attributes '" +:+ chain +:+ "'".

(** [sub in s] for strings. *)
Definition contains (sub s : string) : Prop :=
  exists pre post, s = pre +:+ sub +:+ post.

(** *** [int(s)] and [str(n)] *)

(** What the interpreter's Unicode tables decide, for text that is not
    ASCII (strings are UTF-8 here): [to_ascii] is the text [int()] parses
    in its place, every decimal digit replaced by its ASCII digit and every
    white-space character by a space; [repr_text_200] is the first 200
    characters of [repr()] of it, as the error message of [int()] shows
    it.  For ASCII text neither is consulted. *)
Record Text : Type := mkText {
  to_ascii : string -> string;
  repr_text_200 : string -> string
}.

Fixpoint is_ascii (s : string) : bool :=
  match s with
  | EmptyString => true
  | String c r => (nat_of_ascii c <? 128)%nat && is_ascii r
  end.

(** The white space [int()] skips around a literal: the space, and tab to
    carriage return. *)
Definition is_space (c : ascii) : bool :=
  let n := nat_of_ascii c in
  ((9 <=? n)%nat && (n <=? 13)%nat) || (n =? 32)%nat.

Definition is_digit (c : ascii) : bool :=
  let n := nat_of_ascii c in (48 <=? n)%nat && (n <=? 57)%nat.

(** Strings made of decimal digits only. *)
Fixpoint all_digits (s : string) : bool :=
  match s with
  | EmptyString => true
  | String c r => is_digit c && all_digits r
  end.

Fixpoint ltrim (s : string) : string :=
  match s with
  | EmptyString => EmptyString
  | String c r => if is_space c then ltrim r else s
  end.

Fixpoint rtrim (s : string) : string :=
  match s with
  | EmptyString => EmptyString
  | String c r =>
      match rtrim r with
      | EmptyString => if is_space c then EmptyString else String c EmptyString
      | r' => String c r'
      end
  end.

Definition trim (s : string) : string := ltrim (rtrim s).

(** The digits of an integer literal: at least one digit, and single
    underscores between digits only.  Returns the digits without the
    underscores. *)
Fixpoint literal_digits (after_digit : bool) (s : string) : option string :=
  match s with
  | EmptyString => if after_digit then Some EmptyString else None
  | String c r =>
      if is_digit c then String c <$> literal_digits true r
      else if Ascii.eqb c "_" && after_digit then literal_digits false r
      else None
  end.

Definition magnitude (s : string) : option Z :=
  digits ← literal_digits false s;
  Z.of_uint <$> NilEmpty.uint_of_string digits.

(** An integer literal in base 10: surrounding white space, an optional
    sign, then the digits. *)
Definition parse_ascii (s : string) : option Z :=
  match trim s with
  | EmptyString => None
  | String c r =>
      if Ascii.eqb c "-" then Z.opp <$> magnitude r
      else if Ascii.eqb c "+" then magnitude r
      else magnitude (String c r)
  end.

(** The value of [int(s)], when it has one: ASCII text is parsed as it is,
    other text after the interpreter has replaced its digits and white
    space.  The interpreter is one without a limit on the number of digits
    of an integer (before Python 3.11, or with the limit set to 0). *)
Definition parse_int (text : Text) (s : string) : option Z :=
  parse_ascii (if is_ascii s then s else to_ascii text s).

(** [repr(s)] for ASCII text: between single quotes, or double quotes when
    [s] holds a single quote and no double quote; the quote and the
    backslash escaped; tab, newline and carriage return by letter, the other
    control characters by their hexadecimal code. *)
Definition hex_digit (n : nat) : ascii :=
  ascii_of_nat (if (n <? 10)%nat then 48 + n else 87 + n).

Fixpoint has_char (c : ascii) (s : string) : bool :=
  match s with
  | EmptyString => false
  | String c' r => Ascii.eqb c c' || has_char c r
  end.

Definition escape_char (quote c : ascii) : string :=
  let n := nat_of_ascii c in
  if Ascii.eqb c quote || Ascii.eqb c "\" then String "\" (String c EmptyString)
  else if (n =? 9)%nat then "\t"
  else if (n =? 10)%nat then "\n"
  else if (n =? 13)%nat then "\r"
  else if (n <? 32)%nat || (n =? 127)%nat then
    String "\" (String "x" (String (hex_digit (n / 16))
                              (String (hex_digit (n mod 16)) EmptyString)))
  else String c EmptyString.

Fixpoint escape (quote : ascii) (s : string) : string :=
  match s with
  | EmptyString => EmptyString
  | String c r => escape_char quote c +:+ escape quote r
  end.

Definition double_quote : ascii := ascii_of_nat 34.

Definition repr_ascii (s : string) : string :=
  let quote : ascii :=
    if has_char "'" s && negb (has_char double_quote s) then double_quote
    else "'"%char in
  String quote (escape quote s) +:+ String quote EmptyString.

Fixpoint first_chars (n : nat) (s : string) : string :=
  match n, s with
  | O, _ => EmptyString
  | _, EmptyString => EmptyString
  | S n', String c r => String c (first_chars n' r)
  end.

(** [repr(s)] cut at 200 characters: the format [%.200R] of the error
    message. *)
Definition repr_200 (text : Text) (s : string) : string :=
  if is_ascii s then first_chars 200 (repr_ascii s) else repr_text_200 text s.

(** [int(s)] *)
Definition int (text : Text) (s : string) : Outcome Z :=
  match parse_int text s with
  | Some z => Ok z
  | None =>
      Raised (mkExc ValueError
                ("invalid literal for int() with base 10: " +:+ repr_200 text s))
  end.

(** [str(n)] for an integer. *)
Definition str (z : Z) : string := NilZero.string_of_int (Z.to_int z).

End Py.

(** ** Computations with state and exceptions *)

(** A computation reads and updates a state of type [St] and either returns
    a value or raises; the state changes made before a [raise] persist, as
    in Python. *)
Definition SE (St A : Type) : Type := St -> Py.Outcome A * St.

Module SE.
Import Py.

Definition ret {St A} (a : A) : SE St A := fun s => (Ok a, s).

Definition bind {St A B} (m : SE St A) (k : A -> SE St B) : SE St B :=
  fun s =>
    match m s with
    | (Ok a, s') => k a s'
    | (Raised e, s') => (Raised e, s')
    end.

Definition raise {St A} (c : ExcClass) (msg : string) : SE St A :=
  fun s => (Raised (mkExc c msg), s).

Definition lift {St A} (r : Outcome A) : SE St A := fun s => (r, s).

Definition get {St} : SE St St := fun s => (Ok s, s).

Definition modify {St} (f : St -> St) : SE St unit := fun s => (Ok tt, f s).

(** [try: body  except Exception as e: handler e].  Exceptions that do
    not derive from [Exception] pass through. *)
Definition try_except {St A} (body : SE St A) (handler : PyExc -> SE St A)
  : SE St A :=
  fun s =>
    match body s with
    | (Ok a, s') => (Ok a, s')
    | (Raised e, s') =>
        if is_Exception (exc_class e) then handler e s' else (Raised e, s')
    end.

(** [for x in xs: body x] *)
Definition for_in {St A} (xs : list A) (body : A -> SE St unit) : SE St unit :=
  fun s =>
    fold_left
      (fun (acc : Outcome unit * St) x =>
         match acc with
         | (Ok _, s') => body x s'
         | (Raised e, s') => (Raised e, s')
         end)
      xs (Ok tt, s).

(** Run a computation on a component of a larger state. *)
Definition zoom {St T A} (proj : St -> T) (inj : T -> St -> St) (m : SE T A)
  : SE St A :=
  fun s => let '(r, t) := m (proj s) in (r, inj t s).

End SE.

Notation "x <- m ;; k" := (SE.bind m (fun x => k))
  (at level 100, m at next level, right associativity).
Notation "m ;; k" := (SE.bind m (fun _ => k))
  (at level 100, right associativity).

(** ** Python values and the object store *)

(** Dictionary keys: attribute names are strings, but a dict may also hold
    other hashable keys, which attribute access never matches. *)
Inductive Key : Type :=
| KStr (s : string)
| KInt (z : Z).

(** The values a configuration holds.  A dict or an [AttrDict] is a
    reference into the object store, so that two names can denote the same
    object.  [VClassAttr self name] stands for what normal attribute lookup
    finds on the class for [name] (a method bound to [self], for
    instance). *)
Inductive Value : Type :=
| VNone
| VBool (b : bool)
| VInt (z : Z)
| VStr (s : string)
| VStrList (l : list string)
| VRef (loc : nat)
| VClassAttr (self : nat) (name : string).

Inductive DictClass : Type := PlainDict | AttrDictClass.

(** A dict object: its class, its items in insertion order, and the
    [_parent] entry of the instance [__dict__] (absent until assigned). *)
Record DictObj : Type := mkDict {
  cls : DictClass;
  items : list (Key * Value);
  own_parent : option Value
}.

Abbreviation Heap := (list DictObj).

#[global] Instance Key_eq_dec : EqDecision Key.
Proof. solve_decision. Defined.

(** [d[k]] lookup, [k in d], and [d[k] = v] on the items of a dict. *)
Fixpoint dict_get (k : Key) (its : list (Key * Value)) : option Value :=
  match its with
  | [] => None
  | (k', v) :: rest => if decide (k = k') then Some v else dict_get k rest
  end.

Fixpoint dict_set (k : Key) (v : Value) (its : list (Key * Value))
  : list (Key * Value) :=
  match its with
  | [] => [(k, v)]
  | (k', v') :: rest =>
      if decide (k = k') then (k, v) :: rest else (k', v') :: dict_set k v rest
  end.

(** ** [class AttrDict(dict)] *)

Module AttrDict.
Import Py.

(** Names [class AttrDict] itself defines, apart from [_parent]; a class
    written in Python also carries [__dict__], [__module__], [__weakref__]
    and [__doc__]. *)
Definition own_attrs : list string :=
  ["__setattr__"; "__getattr__"; "dump_to_stdout";
   "__dict__"; "__module__"; "__weakref__"; "__doc__"].

(** The public methods of the built-in [dict]. *)
Definition dict_methods : list string :=
  ["clear"; "copy"; "fromkeys"; "get"; "items"; "keys"; "pop"; "popitem";
   "setdefault"; "update"; "values"].

Section Lookup.
(** The remaining names that [dict] and [object] define (the special
    methods, whose list depends on the interpreter's version). *)
Context (special_attr : string -> bool).

Definition dict_attr (name : string) : bool :=
  bool_decide (name ∈ dict_methods) || special_attr name.

Definition class_attr (name : string) : bool :=
  bool_decide (name ∈ own_attrs) || dict_attr name.

Definition deref (loc : nat) : SE Heap DictObj :=
  fun h =>
    match h !! loc with
    | Some o => (Ok o, h)
    | None => (Raised (mkExc RuntimeError "dangling reference"), h)
    end.

Definition alloc (o : DictObj) : SE Heap nat :=
  fun h => (Ok (length h), h ++ [o]).

Definition update (loc : nat) (f : DictObj -> DictObj) : SE Heap unit :=
  o <- deref loc ;; SE.modify (fun h => <[loc := f o]> h).

(** [isinstance(v, dict)]: every object of the store is a dict or an
    instance of a subclass of dict. *)
Definition is_dict (h : Heap) (v : Value) : bool :=
  match v with
  | VRef loc => bool_decide (is_Some (h !! loc))
  | _ => false
  end.

Definition isinstance_dict (v : Value) : SE Heap bool :=
  fun h => (Ok (is_dict h v), h).

(** [AttrDict()] *)
Definition new_empty : SE Heap nat := alloc (mkDict AttrDictClass [] None).

(** [AttrDict(v)]: a new object holding a copy of the items of the
    mapping [v]. *)
Definition new (v : Value) : SE Heap nat :=
  match v with
  | VRef loc => o <- deref loc ;; alloc (mkDict AttrDictClass (items o) None)
  | _ => SE.raise TypeError "object is not iterable"
  end.

(** [self[key]] and [self[key] = value] *)
Definition getitem (self : nat) (key : Key) : SE Heap Value :=
  o <- deref self ;;
  match dict_get key (items o) with
  | Some v => SE.ret v
  | None => SE.raise KeyError "key not found"
  end.

Definition setitem (self : nat) (key : Key) (value : Value) : SE Heap unit :=
  update self (fun o => mkDict (cls o) (dict_set key value (items o)) (own_parent o)).

(** [self._parent]: the instance's entry when there is one, the class
    attribute [[]] otherwise. *)
Definition _parent (o : DictObj) : Value := default (VStrList []) (own_parent o).

(** [self._parent + [key]] *)
Definition extend_parent (o : DictObj) (key : string) : SE Heap (list string) :=
  match _parent o with
  | VStrList p => SE.ret (p ++ [key])
  | _ => SE.raise TypeError "can only concatenate list to list"
  end.

Definition __setattr__ (self : nat) (key : string) (value : Value) : SE Heap unit :=
  if decide (key = "_parent") then
    update self (fun o => mkDict (cls o) (items o) (Some value))
  else
    setitem self (KStr key) value.

(** The assignment [d.name = value]: [AttrDict.__setattr__] takes every
    name; a plain dict accepts none. *)
Definition setattribute (self : nat) (name : string) (value : Value)
  : SE Heap unit :=
  o <- deref self ;;
  match cls o with
  | AttrDictClass => __setattr__ self name value
  | PlainDict =>
      SE.raise AttributeError
        ("'dict' object has no attribute '" +:+ name +:+ "'")
  end.

Definition __getattr__ (self : nat) (key : string) : SE Heap Value :=
  o <- deref self ;;
  match dict_get (KStr key) (items o) with
  | None =>
      p <- extend_parent o key ;;
      SE.raise AttributeError (no_chain_message (join "." p))
  | Some v =>
      is_dict <- isinstance_dict v ;;
      (if is_dict : bool then
         n <- new v ;;
         setitem self (KStr key) (VRef n) ;;
         o' <- deref self ;;
         p <- extend_parent o' key ;;
         cur <- getitem self (KStr key) ;;
         match cur with
         | VRef c => setattribute c "_parent" (VStrList p)
         | _ => SE.raise AttributeError "object has no attribute '_parent'"
         end
       else SE.ret tt) ;;
      getitem self (KStr key)
  end.

(** The attribute access [d.name]: normal lookup first ([_parent], then
    whatever the class defines); [__getattr__] only when that finds
    nothing.  A plain dict has no [__getattr__]. *)
Definition getattribute (self : nat) (name : string) : SE Heap Value :=
  o <- deref self ;;
  match cls o with
  | AttrDictClass =>
      if decide (name = "_parent") then SE.ret (_parent o)
      else if class_attr name then SE.ret (VClassAttr self name)
      else __getattr__ self name
  | PlainDict =>
      if dict_attr name then SE.ret (VClassAttr self name)
      else SE.raise AttributeError
             ("'dict' object has no attribute '" +:+ name +:+ "'")
  end.

End Lookup.

(** The special names of [dict] and [object] in CPython 3.9. *)
Definition cpython_special : list string :=
  ["__class__"; "__class_getitem__"; "__contains__"; "__delattr__";
   "__delitem__"; "__dir__"; "__eq__"; "__format__"; "__ge__";
   "__getattribute__"; "__getitem__"; "__gt__"; "__hash__"; "__init__";
   "__init_subclass__"; "__ior__"; "__iter__"; "__le__"; "__len__";
   "__lt__"; "__ne__"; "__new__"; "__or__"; "__reduce__"; "__reduce_ex__";
   "__repr__"; "__reversed__"; "__ror__"; "__setitem__"; "__sizeof__";
   "__str__"; "__subclasshook__"].

Definition cpython (name : string) : bool :=
  bool_decide (name ∈ cpython_special).

(** The object a read leaves under [self], and the one it creates. *)
Definition rebound (o : DictObj) (name : string) (n : nat) : DictObj :=
  mkDict (cls o) (dict_set (KStr name) (VRef n) (items o)) (own_parent o).

Definition wrapped (src : DictObj) (p : list string) (name : string) : DictObj :=
  mkDict AttrDictClass (items src) (Some (VStrList (p ++ [name]))).

End AttrDict.

(** ** The NNabla framework, seen from [comm.py] *)

Module Nnabla.
Import Py.

(** [nnabla.Context]: the backend list, the array class and the device
    id, which is a string. *)
Record Context : Type := mkContext {
  backend : list string;
  array_class : string;
  device_id : string
}.

(** Handles of framework objects. *)
Definition Comm : Type := nat.
Definition Solver : Type := nat.
Definition NdArray : Type := nat.
Definition Callback : Type := nat.

(** [nnabla.Variable], of which [comm.py] reads [grad]. *)
Record Var : Type := mkVar { data : NdArray; grad : NdArray }.

(** The calls [comm.py] makes into the framework.  Reading [comm.size],
    [comm.rank] and [comm.local_rank] are property reads of the native
    communicator. *)
Inductive Call : Type :=
| MultiProcessDataParallelCommunicator (ctx : Context)
| comm_init (c : Comm)
| comm_size (c : Comm)
| comm_rank (c : Comm)
| comm_local_rank (c : Comm)
| comm_all_reduce (c : Comm) (params : list NdArray) (division inplace : bool)
| comm_barrier (c : Comm)
| comm_all_reduce_callback (c : Comm) (params : list NdArray) (packing_size : Z)
| solver_get_parameters (s : Solver)
| solver_update (s : Solver)
| nn_get_parameters
| get_extension_context (ext_name : Value) (kw : list (string * Value))
| nn_set_default_context (ctx : Context).

(** What each call returns when it does not raise. *)
Definition answer (c : Call) : Type :=
  match c with
  | MultiProcessDataParallelCommunicator _ => Comm
  | comm_size _ | comm_rank _ | comm_local_rank _ => Z
  | comm_all_reduce_callback _ _ _ => Callback
  | solver_get_parameters _ | nn_get_parameters => list (string * Var)
  | get_extension_context _ _ => Context
  | comm_init _ | comm_all_reduce _ _ _ _ | comm_barrier _
  | solver_update _ | nn_set_default_context _ => unit
  end.

(** The framework: a state of its own and, for each call, a returned
    value or a raised exception. *)
Definition Framework (S : Type) : Type :=
  forall c : Call, S -> Outcome (answer c) * S.

(** Calls made on [nnabla.logger]. *)
Inductive LoggerCall : Type :=
| setLevel (level : Z)
| info (msg : string).

Definition ERROR : Z := 40.

(** The state a run acts on: the object store, the framework's state, the
    trace of framework calls, the lines printed, and the logger's level
    and calls. *)
Record World (S : Type) : Type := mkWorld {
  heap : Heap;
  nnabla : S;
  calls : list Call;
  stdout : list string;
  logger_level : Z;
  logger_calls : list LoggerCall
}.
Arguments mkWorld {S}.
Arguments heap {S}.
Arguments nnabla {S}.
Arguments calls {S}.
Arguments stdout {S}.
Arguments logger_level {S}.
Arguments logger_calls {S}.

(** The world after the framework answered the calls [cs] and reached
    state [s']. *)
Definition advance {S} (w : World S) (s' : S) (cs : list Call) : World S :=
  mkWorld (heap w) s' (calls w ++ cs) (stdout w) (logger_level w) (logger_calls w).

Definition printed {S} (w : World S) (lines : list string) : World S :=
  mkWorld (heap w) (nnabla w) (calls w) (stdout w ++ lines)
    (logger_level w) (logger_calls w).

Definition logged {S} (w : World S) (level : Z) (lcs : list LoggerCall) : World S :=
  mkWorld (heap w) (nnabla w) (calls w) (stdout w) level (logger_calls w ++ lcs).

Definition with_heap {S} (w : World S) (h : Heap) : World S :=
  mkWorld h (nnabla w) (calls w) (stdout w) (logger_level w) (logger_calls w).

(** The logger is as it was. *)
Definition same_logger {S} (w w' : World S) : Prop :=
  logger_level w' = logger_level w /\ logger_calls w' = logger_calls w.

Section Primitives.
Context {S : Type} (fw : Framework S).

(** Make a framework call: record it, then take the framework's
    answer. *)
Definition extern (c : Call) : SE (World S) (answer c) :=
  fun w => let '(r, s') := fw c (nnabla w) in (r, advance w s' [c]).

Definition print (line : string) : SE (World S) unit :=
  SE.modify (fun w => printed w [line]).

Definition logger_info (msg : string) : SE (World S) unit :=
  SE.modify (fun w => logged w (logger_level w) [info msg]).

Definition logger_setLevel (level : Z) : SE (World S) unit :=
  SE.modify (fun w => logged w level [setLevel level]).

(** Run a computation on the object store. *)
Definition on_heap {A} (m : SE Heap A) : SE (World S) A :=
  SE.zoom heap (fun h w => with_heap w h) m.

End Primitives.

End Nnabla.

(** ** [comm.py] *)

Module Comm.
Import Py Nnabla.

(** A [CommunicatorWrapper] instance. *)
Record CommunicatorWrapper : Type := mkWrapper {
  n_procs : Z;
  rank : Z;
  local_rank : Z;
  comm : option Nnabla.Comm;
  ctx : Context;
  ctx_float : Context
}.

Definition no_communicator_message : string :=
  "No communicator found. Running with a single process. If you run this with MPI processes, all processes will perform totally same.".

Definition using_gpu_message (device_id : string) (rank : Z) : string :=
  "[Communicator] Using gpu_id = " +:+ device_id +:+ " as rank = " +:+ str rank.

Section Code.
Context {S : Type} (special_attr : string -> bool) (text : Text)
  (fw : Framework S).

Local Abbreviation M := (SE (World S)).

Definition create_float_context (ctx : Context) : M Context :=
  first <- SE.lift (index (backend ctx) 0) ;;
  name <- SE.lift (index (split ":" first) 0) ;;
  extern fw (get_extension_context (VStr name)
               [("device_id", VStr (device_id ctx))]).

(** The communicator stored under [self.comm], or the [AttributeError]
    of calling a method on [None]. *)
Definition the_comm (self : CommunicatorWrapper) (method : string)
  : M Nnabla.Comm :=
  match comm self with
  | Some c => SE.ret c
  | None =>
      SE.raise AttributeError
        ("'NoneType' object has no attribute '" +:+ method +:+ "'")
  end.

(** The [try] block of [__init__] and its [except] block.  The four
    attributes the [try] block assigns are all assigned again by the
    [except] block, so each block is modelled as yielding the values of
    [n_procs], [rank], [local_rank] and [comm]. *)
Definition init_try (ctx : Context) : M (Z * Z * Z * option Nnabla.Comm) :=
  comm <- extern fw (MultiProcessDataParallelCommunicator ctx) ;;
  extern fw (comm_init comm) ;;
  size <- extern fw (comm_size comm) ;;
  rank <- extern fw (comm_rank comm) ;;
  local_rank <- extern fw (comm_local_rank comm) ;;
  SE.ret (size : Z, rank : Z, local_rank : Z, Some (comm : Nnabla.Comm)).

Definition init_except (e : PyExc) : M (Z * Z * Z * option Nnabla.Comm) :=
  print (exc_msg e) ;;
  print no_communicator_message ;;
  SE.ret (1, 0, 0, None).

(** [CommunicatorWrapper.__init__].  [local_rank] is an integer, so
    [int(self.local_rank)] is [local_rank] itself; the context is a value
    here, and the context stored in the wrapper is the updated one. *)
Definition __init__ (ctx : Context) : M CommunicatorWrapper :=
  assigned <- SE.try_except (init_try ctx) init_except ;;
  let '(size, rank, local_rank, comm) := assigned in
  id <- SE.lift (int text (device_id ctx)) ;;
  let ctx := mkContext (backend ctx) (array_class ctx) (str (id + local_rank)) in
  ctx_float <- create_float_context ctx ;;
  logger_info (using_gpu_message (device_id ctx) rank) ;;
  SE.ret (mkWrapper size rank local_rank comm ctx ctx_float).

Definition all_reduce (self : CommunicatorWrapper) (params : list NdArray)
    (division inplace : bool) : M unit :=
  if n_procs self =? 1 then SE.ret tt
  else
    c <- the_comm self "all_reduce" ;;
    extern fw (comm_all_reduce c params division inplace).

Definition barrier (self : CommunicatorWrapper) : M unit :=
  if n_procs self =? 1 then SE.ret tt
  else
    c <- the_comm self "barrier" ;;
    extern fw (comm_barrier c).

(** [[x.grad for x in parameters.values()]] *)
Definition grads (parameters : list (string * Var)) : list NdArray :=
  map (fun kv => grad kv.2) parameters.

(** [division] and [inplace] are keyword arguments with defaults
    [False] and [True]: [None] here means the argument was not given. *)
Definition all_reduced_solver_update (self : CommunicatorWrapper)
    (solver : Solver) (division inplace : option bool) : M unit :=
  let division := default false division in
  let inplace := default true inplace in
  (if 1 <? n_procs self then
     parameters <- extern fw (solver_get_parameters solver) ;;
     all_reduce self (grads parameters) division inplace
   else SE.ret tt) ;;
  extern fw (solver_update solver).

Definition all_reduced_solver_update_all (self : CommunicatorWrapper)
    (solvers : list Solver) (division inplace : option bool) : M unit :=
  let division := default false division in
  let inplace := default true inplace in
  SE.for_in solvers
    (fun solver =>
       all_reduced_solver_update self solver (Some division) (Some inplace)).

Definition default_packing_size : Z := Z.shiftl 2 20.

Definition get_all_reduce_callback (self : CommunicatorWrapper)
    (packing_size : option Z) : M (option Callback) :=
  let packing_size := default default_packing_size packing_size in
  if 1 <? n_procs self then
    parameters <- extern fw nn_get_parameters ;;
    c <- the_comm self "all_reduce_callback" ;;
    callback <- extern fw (comm_all_reduce_callback c (grads parameters) packing_size) ;;
    SE.ret (Some (callback : Callback))
  else SE.ret None.

(** [init_nnabla]: [conf] is [None] or a reference to a configuration
    object; the other arguments are [VNone] when not given. *)
Definition set_if_given (conf : nat) (name : string) (value : Value) : M unit :=
  match value with
  | VNone => SE.ret tt
  | _ => on_heap (AttrDict.setattribute conf name value)
  end.

Definition init_nnabla (conf : option nat) (ext_name device_id type_config : Value)
  : M CommunicatorWrapper :=
  conf <- match conf with
          | None => on_heap AttrDict.new_empty
          | Some loc => SE.ret loc
          end ;;
  set_if_given conf "ext_name" ext_name ;;
  set_if_given conf "device_id" device_id ;;
  set_if_given conf "type_config" type_config ;;
  ext_name <- on_heap (AttrDict.getattribute special_attr conf "ext_name") ;;
  device_id <- on_heap (AttrDict.getattribute special_attr conf "device_id") ;;
  type_config <- on_heap (AttrDict.getattribute special_attr conf "type_config") ;;
  ctx <- extern fw (get_extension_context ext_name
                      [("device_id", device_id); ("type_config", type_config)]) ;;
  comm <- __init__ ctx ;;
  extern fw (nn_set_default_context (Comm.ctx comm)) ;;
  (if 0 <? rank comm then logger_setLevel ERROR else SE.ret tt) ;;
  SE.ret comm.

End Code.

End Comm.

(** ** The specification's reading of two steps *)

(** "Truncating at the first [':']": the characters before the first
    occurrence of the separator, the whole string when there is none. *)
Fixpoint truncate_at (sep : ascii) (s : string) : string :=
  match s with
  | EmptyString => EmptyString
  | String c r => if Ascii.eqb c sep then EmptyString else String c (truncate_at sep r)
  end.

(** "The grad tensor of every value of the parameters": for the mapping
    [parameters], in its order, the [grad] of each value. *)
Definition grad_of_every_value (parameters : list (string * Nnabla.Var))
  : list Nnabla.NdArray :=
  map Nnabla.grad (map snd parameters).

(** "Applying [all_reduced_solver_update] to each solver, one at a time, in
    the order given, with the same flags". *)
Fixpoint one_at_a_time {S} (fw : Nnabla.Framework S) (self : Comm.CommunicatorWrapper)
    (solvers : list Nnabla.Solver) (division inplace : option bool)
  : SE (Nnabla.World S) unit :=
  match solvers with
  | [] => SE.ret tt
  | solver :: rest =>
      Comm.all_reduced_solver_update fw self solver division inplace ;;
      one_at_a_time fw self rest division inplace
  end.

(** ** Vocabulary for the constructor *)

Module Outcomes.
Import Py Nnabla Comm.

(** The call [create_float_context] makes for a context whose first
    backend is [b] and whose device id is [dev]. *)
Definition float_call (b dev : string) : Call :=
  get_extension_context (VStr (truncate_at ":" b)) [("device_id", VStr dev)].

(** The context [__init__] stores: the device id moved by the local
    rank. *)
Definition shifted (ctx : Context) (d local_rank : Z) : Context :=
  mkContext (backend ctx) (array_class ctx) (str (d + local_rank)).

Definition single_process (self : CommunicatorWrapper) : Prop :=
  n_procs self = 1 /\ rank self = 0 /\ local_rank self = 0 /\ comm self = None.

Section TryBlock.
Context {S : Type} (fw : Framework S).

(** How the [try] block of [__init__] can go: the outcome, the
    framework's state afterwards and the calls made. *)
Inductive TryOutcome (ctx : Context) (s : S)
  : Outcome (Z * Z * Z * option Nnabla.Comm) -> S -> list Call -> Prop :=
| try_constructor_raises e s1 :
    fw (MultiProcessDataParallelCommunicator ctx) s = (Raised e, s1) ->
    TryOutcome ctx s (Raised e) s1 [MultiProcessDataParallelCommunicator ctx]
| try_init_raises c s1 e s2 :
    fw (MultiProcessDataParallelCommunicator ctx) s = (Ok c, s1) ->
    fw (comm_init c) s1 = (Raised e, s2) ->
    TryOutcome ctx s (Raised e) s2
      [MultiProcessDataParallelCommunicator ctx; comm_init c]
| try_size_raises c s1 s2 e s3 :
    fw (MultiProcessDataParallelCommunicator ctx) s = (Ok c, s1) ->
    fw (comm_init c) s1 = (Ok tt, s2) ->
    fw (comm_size c) s2 = (Raised e, s3) ->
    TryOutcome ctx s (Raised e) s3
      [MultiProcessDataParallelCommunicator ctx; comm_init c; comm_size c]
| try_rank_raises c s1 s2 n s3 e s4 :
    fw (MultiProcessDataParallelCommunicator ctx) s = (Ok c, s1) ->
    fw (comm_init c) s1 = (Ok tt, s2) ->
    fw (comm_size c) s2 = (Ok n, s3) ->
    fw (comm_rank c) s3 = (Raised e, s4) ->
    TryOutcome ctx s (Raised e) s4
      [MultiProcessDataParallelCommunicator ctx; comm_init c; comm_size c;
       comm_rank c]
| try_local_rank_raises c s1 s2 n s3 r s4 e s5 :
    fw (MultiProcessDataParallelCommunicator ctx) s = (Ok c, s1) ->
    fw (comm_init c) s1 = (Ok tt, s2) ->
    fw (comm_size c) s2 = (Ok n, s3) ->
    fw (comm_rank c) s3 = (Ok r, s4) ->
    fw (comm_local_rank c) s4 = (Raised e, s5) ->
    TryOutcome ctx s (Raised e) s5
      [MultiProcessDataParallelCommunicator ctx; comm_init c; comm_size c;
       comm_rank c; comm_local_rank c]
| try_connected c s1 s2 n s3 r s4 l s5 :
    fw (MultiProcessDataParallelCommunicator ctx) s = (Ok c, s1) ->
    fw (comm_init c) s1 = (Ok tt, s2) ->
    fw (comm_size c) s2 = (Ok n, s3) ->
    fw (comm_rank c) s3 = (Ok r, s4) ->
    fw (comm_local_rank c) s4 = (Ok l, s5) ->
    TryOutcome ctx s (Ok (n, r, l, Some c)) s5
      [MultiProcessDataParallelCommunicator ctx; comm_init c; comm_size c;
       comm_rank c; comm_local_rank c].

End TryBlock.

End Outcomes.

(** ** A small framework to run the code on *)

Module Fake.
Import Py Nnabla.

(** The state says whether an MPI runtime is there, and then the size,
    rank and local rank it reports. *)
Definition State : Type := option (Z * Z * Z).

Definition parameters : list (string * Var) :=
  [("conv/W", mkVar 1%nat 2%nat); ("conv/b", mkVar 3%nat 4%nat)].

Definition device_of (kw : list (string * Value)) : string :=
  match kw with
  | (_, VStr d) :: _ => d
  | _ => "0"
  end.

Definition name_of (v : Value) : string :=
  match v with
  | VStr s => s
  | _ => "cpu"
  end.

Definition fw : Framework State :=
  fun c s =>
    match c as c0 return Outcome (answer c0) * State with
    | MultiProcessDataParallelCommunicator _ =>
        match s with
        | Some _ => (Ok 7%nat, s)
        | None => (Raised (mkExc RuntimeError "MPI is not available"), s)
        end
    | comm_size _ => (Ok (match s with Some (n, _, _) => n | None => 1 end), s)
    | comm_rank _ => (Ok (match s with Some (_, r, _) => r | None => 0 end), s)
    | comm_local_rank _ => (Ok (match s with Some (_, _, l) => l | None => 0 end), s)
    | comm_all_reduce_callback _ _ _ => (Ok 9%nat, s)
    | solver_get_parameters _ => (Ok parameters, s)
    | nn_get_parameters => (Ok parameters, s)
    | get_extension_context name kw =>
        (Ok (mkContext [name_of name +:+ ":float"] "CudaCachedArray" (device_of kw)), s)
    | comm_init _ => (Ok tt, s)
    | comm_all_reduce _ _ _ _ => (Ok tt, s)
    | comm_barrier _ => (Ok tt, s)
    | solver_update _ => (Ok tt, s)
    | nn_set_default_context _ => (Ok tt, s)
    end.

Definition world (s : State) (h : Heap) : World State :=
  mkWorld h s [] [] 20 [].

(** An interpreter whose tables know no digit and no white space beyond
    ASCII, and print other text between single quotes as it is. *)
Definition text : Text :=
  mkText (fun s => s) (fun s => "'" +:+ s +:+ "'").

Definition gpu0 : Context := mkContext ["cudnn:float"] "CudaCachedArray" "0".

(** A context whose device id is not an integer literal. *)
Definition no_device : Context := mkContext ["cpu:float"] "CpuCachedArray" "".

Definition gpu1 : Context := mkContext ["cudnn:float"] "CudaCachedArray" "1".

(** Four processes; this one has rank 2 and local rank 1. *)
Definition mpi : State := Some (4, 2, 1).

(** The wrappers [__init__] builds on [gpu0] with and without MPI. *)
Definition connected : Comm.CommunicatorWrapper :=
  Comm.mkWrapper 4 2 1 (Some 7%nat) gpu1 gpu1.

Definition single : Comm.CommunicatorWrapper :=
  Comm.mkWrapper 1 0 0 None gpu0 gpu0.

(** [{'model': {'depth': 3}}] held by an [AttrDict]. *)
Definition conf_heap : Heap :=
  [mkDict AttrDictClass [(KStr "model", VRef 1)] None;
   mkDict PlainDict [(KStr "depth", VInt 3)] None].

(** [{'items': {'a': 1}}] held by an [AttrDict]: the key has the name of
    a method of [dict]. *)
Definition shadowed_heap : Heap :=
  [mkDict AttrDictClass [(KStr "items", VRef 1)] None;
   mkDict PlainDict [(KStr "a", VInt 1)] None].

End Fake.

(** ** [AttrDict.dump_to_stdout] *)

Module AttrDictOutput.
Import Py AttrDict Nnabla.

Definition banner_top : string :=
  "================================configs================================".

Definition banner_bottom : string :=
  "=======================================================================".

(** ["{}".format(k)] for a key. *)
Definition format_key (k : Key) : string :=
  match k with
  | KStr s => s
  | KInt z => str z
  end.

Section Dump.
(** The text Python prints for a list, a dict or a bound method; how it is
    laid out is the interpreter's business. *)
Context {S : Type} (repr : Heap -> Value -> string).

(** ["{}".format(v)] for a value. *)
Definition format_value (h : Heap) (v : Value) : string :=
  match v with
  | VNone => "None"
  | VBool true => "True"
  | VBool false => "False"
  | VInt z => str z
  | VStr s => s
  | _ => repr h v
  end.

Definition dump_to_stdout (self : nat) : SE (World S) unit :=
  print banner_top ;;
  o <- on_heap (deref self) ;;
  SE.for_in (items o)
    (fun kv => w <- SE.get ;;
               print (format_key kv.1 +:+ ": " +:+ format_value (heap w) kv.2)) ;;
  print banner_bottom.

End Dump.

(** The line printed for an item. *)
Definition item_line (repr : Heap -> Value -> string) (h : Heap)
    (kv : Key * Value) : string :=
  format_key kv.1 +:+ ": " +:+ format_value repr h kv.2.

End AttrDictOutput.

(** ** Vocabulary for the methods and for [init_nnabla] *)

Module Vocabulary.
Import Py Nnabla Comm.

(** Only the framework (its state and the trace of calls) has moved: the
    object store, the printed lines and the logger are as they were. *)
Definition only_framework {S} (w w' : World S) : Prop :=
  heap w' = heap w /\ stdout w' = stdout w /\
  logger_level w' = logger_level w /\ logger_calls w' = logger_calls w.

(** A computation that only talks to the framework. *)
Inductive quiet {S A} (m : SE (World S) A) : Prop :=
| quiet_intro : (forall w, only_framework w (m w).2) -> quiet m.

(** The calls made from [w] to [w']. *)
Definition made {S} (w w' : World S) (cs : list Call) : Prop :=
  calls w' = calls w ++ cs.

(** The value [init_nnabla] uses for a setting: the argument when it is
    given, the entry of the configuration otherwise. *)
Definition chosen (arg : Value) (name : string) (o : DictObj) : option Value :=
  match arg with
  | VNone => dict_get (KStr name) (items o)
  | _ => Some arg
  end.

(** The configuration object after [conf.name = arg], done when [arg] is
    given. *)
Definition assigned (o : DictObj) (name : string) (arg : Value) : DictObj :=
  match arg with
  | VNone => o
  | _ => mkDict (cls o) (dict_set (KStr name) arg (items o)) (own_parent o)
  end.

(** Values that are not references to objects. *)
Definition plain (v : Value) : Prop :=
  match v with
  | VRef _ => False
  | _ => True
  end.

(** The configuration object [init_nnabla] works on, in the store it finds:
    the given one, or a new empty [AttrDict]. *)
Definition conf_object (h : Heap) (conf : option nat) : option DictObj :=
  match conf with
  | Some loc => h !! loc
  | None => Some (mkDict AttrDictClass [] None)
  end.

Definition conf_location (h : Heap) (conf : option nat) : nat :=
  match conf with
  | Some loc => loc
  | None => length h
  end.

Definition conf_store (h : Heap) (conf : option nat) : Heap :=
  match conf with
  | Some _ => h
  | None => h ++ [mkDict AttrDictClass [] None]
  end.

(** Lines 36 to 48 of [init_nnabla], for the three settings once they are
    read: the context, the wrapper, the default context, the logger. *)
Definition init_nnabla_with {S} (text : Text) (fw : Framework S)
    (ext_name device_id type_config : Value) : SE (World S) CommunicatorWrapper :=
  ctx <- extern fw (get_extension_context ext_name
                      [("device_id", device_id); ("type_config", type_config)]) ;;
  comm <- __init__ text fw ctx ;;
  extern fw (nn_set_default_context (Comm.ctx comm)) ;;
  (if 0 <? rank comm then logger_setLevel ERROR else SE.ret tt) ;;
  SE.ret comm.

(** The configuration object after the three assignments of
    [init_nnabla]. *)
Definition configured (o : DictObj) (ext_name device_id type_config : Value)
  : DictObj :=
  assigned (assigned (assigned o "ext_name" ext_name) "device_id" device_id)
    "type_config" type_config.

(** The message of the [AttributeError] for a setting that is neither given
    nor in the configuration. *)
Definition missing_setting (p : list string) (name : string) : PyExc :=
  mkExc AttributeError (no_chain_message (join "." (p ++ [name]))).

(** The solvers' updates, as framework calls. *)
Definition updates (solvers : list Solver) : list Call := map solver_update solvers.

End Vocabulary.

(** ** A framework that fails *)

Module Faulty.
Import Py Nnabla.

(** Building the communicator is interrupted from the keyboard, and the
    update of solver 13 fails; nothing else raises. *)
Definition fw : Framework unit :=
  fun c s =>
    match c as c0 return Outcome (answer c0) * unit with
    | MultiProcessDataParallelCommunicator _ =>
        (Raised (mkExc KeyboardInterrupt ""), s)
    | comm_size _ => (Ok 1, s)
    | comm_rank _ => (Ok 0, s)
    | comm_local_rank _ => (Ok 0, s)
    | comm_all_reduce_callback _ _ _ => (Ok 0%nat, s)
    | solver_get_parameters _ => (Ok [], s)
    | nn_get_parameters => (Ok [], s)
    | get_extension_context _ _ => (Ok Fake.gpu0, s)
    | comm_init _ => (Ok tt, s)
    | comm_all_reduce _ _ _ _ => (Ok tt, s)
    | comm_barrier _ => (Ok tt, s)
    | solver_update solver =>
        if Nat.eqb solver 13 then (Raised (mkExc RuntimeError "diverged"), s)
        else (Ok tt, s)
    | nn_set_default_context _ => (Ok tt, s)
    end.

Definition world : World unit := mkWorld [] tt [] [] 20 [].

End Faulty.

(** ** Proof automation *)

(** Two answers of the framework to the same call in the same state are
    the same answer. *)
Ltac same_call :=
  repeat match goal with
    | H1 : ?f ?c ?s = _, H2 : ?f ?c ?s = _ |- _ =>
        rewrite H1 in H2; inversion H2; subst; clear H2
    end.

(** * Properties *)

(** ** Python built-ins *)

Module PyFacts.
Import Py.

Example int_examples :
  parse_ascii "0" = Some 0 /\ parse_ascii " 12 " = Some 12 /\
  parse_ascii "-7" = Some (-7) /\ parse_ascii "+007" = Some 7 /\
  parse_ascii "1_000" = Some 1000 /\ parse_ascii "" = None /\
  parse_ascii "1__0" = None /\ parse_ascii "_1" = None /\
  parse_ascii "- 1" = None /\ parse_ascii "gpu0" = None /\
  parse_ascii (String (ascii_of_nat 11) "5") = Some 5 /\
  parse_ascii (String (ascii_of_nat 28) "5") = None /\
  parse_ascii ("5" +:+ String (ascii_of_nat 31) "") = None /\
  str 0 = "0" /\ str (-12) = "-12" /\ str 2097152 = "2097152".
Proof. repeat split; reflexivity. Qed.

Example repr_examples :
  repr_ascii "" = "''" /\ repr_ascii "gpu0" = "'gpu0'" /\
  repr_ascii "a'b" = String double_quote ("a'b" +:+ String double_quote "") /\
  repr_ascii "a\b" = "'a\\b'" /\
  repr_ascii (String (ascii_of_nat 28) "5") = "'\x1c5'" /\
  repr_ascii (String (ascii_of_nat 10) "") = "'\n'".
Proof. repeat split; reflexivity. Qed.

Example split_examples :
  split ":" "cudnn:float" = ["cudnn"; "float"] /\
  split ":" "cpu" = ["cpu"] /\ split ":" "" = [""] /\
  split ":" "a::b" = ["a"; ""; "b"] /\
  join "." ["a"; "b"; "c"] = "a.b.c" /\ join "." [] = "".
Proof. repeat split; reflexivity. Qed.

Lemma digit_plain (c : ascii) :
  is_digit c = true ->
  is_space c = false /\ Ascii.eqb c "-" = false /\
  Ascii.eqb c "+" = false /\ Ascii.eqb c "_" = false.
Proof.
  destruct c as [[] [] [] [] [] [] [] []]; vm_compute; intuition congruence.
Qed.

Lemma string_of_uint_digits (d : uint) :
  all_digits (NilEmpty.string_of_uint d) = true.
Proof. induction d; simpl; auto. Qed.

Lemma string_of_uint_nonempty (d : uint) :
  d <> Nil -> NilEmpty.string_of_uint d <> EmptyString.
Proof. destruct d; simpl; congruence. Qed.

Lemma ltrim_digits (s : string) : all_digits s = true -> ltrim s = s.
Proof.
  destruct s as [|c r]; simpl; [easy|].
  intros [Hc _]%andb_prop. apply digit_plain in Hc as [-> _]. reflexivity.
Qed.

Lemma rtrim_digits (s : string) : all_digits s = true -> rtrim s = s.
Proof.
  induction s as [|c r IH]; simpl; [easy|].
  intros [Hc Hr]%andb_prop. rewrite (IH Hr).
  apply digit_plain in Hc as [-> _]. destruct r; reflexivity.
Qed.

Lemma literal_digits_all (s : string) (after_digit : bool) :
  all_digits s = true -> after_digit = true \/ s <> EmptyString ->
  literal_digits after_digit s = Some s.
Proof.
  revert after_digit. induction s as [|c r IH]; simpl; intros b Hs Hb.
  - destruct Hb as [-> | Hne]; [reflexivity | congruence].
  - apply andb_prop in Hs as [Hc Hr]. rewrite Hc.
    rewrite (IH true Hr) by (left; reflexivity). reflexivity.
Qed.

Lemma magnitude_digits (d : uint) :
  d <> Nil -> magnitude (NilEmpty.string_of_uint d) = Some (Z.of_uint d).
Proof.
  intros Hd. unfold magnitude.
  rewrite literal_digits_all.
  - simpl. rewrite NilEmpty.usu. reflexivity.
  - apply string_of_uint_digits.
  - right. now apply string_of_uint_nonempty.
Qed.

Lemma of_uint_to_uint (p : positive) : Z.of_uint (Pos.to_uint p) = Z.pos p.
Proof. unfold Z.of_uint. rewrite DecimalPos.Unsigned.of_to. reflexivity. Qed.

Lemma string_of_uint_pos (p : positive) :
  NilZero.string_of_uint (Pos.to_uint p) = NilEmpty.string_of_uint (Pos.to_uint p).
Proof.
  pose proof (DecimalPos.Unsigned.to_uint_nonnil p) as Hn.
  destruct (Pos.to_uint p); [congruence | reflexivity ..].
Qed.

Lemma parse_ascii_str (z : Z) : parse_ascii (str z) = Some z.
Proof.
  destruct z as [|p|p]; [reflexivity | |].
  - unfold str, parse_ascii, trim. simpl Z.to_int. simpl NilZero.string_of_int.
    rewrite string_of_uint_pos.
    pose proof (string_of_uint_digits (Pos.to_uint p)) as Hd.
    pose proof (string_of_uint_nonempty _ (DecimalPos.Unsigned.to_uint_nonnil p)) as Hn.
    rewrite (rtrim_digits _ Hd), (ltrim_digits _ Hd).
    destruct (NilEmpty.string_of_uint (Pos.to_uint p)) as [|c r] eqn:E; [congruence|].
    pose proof Hd as Hd'. simpl in Hd'. apply andb_prop in Hd' as [Hc _].
    apply digit_plain in Hc as (_ & -> & -> & _).
    rewrite <- E, magnitude_digits by apply DecimalPos.Unsigned.to_uint_nonnil.
    now rewrite of_uint_to_uint.
  - unfold str, parse_ascii, trim. simpl Z.to_int. simpl NilZero.string_of_int.
    rewrite string_of_uint_pos.
    pose proof (string_of_uint_digits (Pos.to_uint p)) as Hd.
    pose proof (string_of_uint_nonempty _ (DecimalPos.Unsigned.to_uint_nonnil p)) as Hn.
    simpl rtrim. rewrite (rtrim_digits _ Hd).
    destruct (NilEmpty.string_of_uint (Pos.to_uint p)) as [|c r] eqn:E; [congruence|].
    simpl. rewrite <- E, magnitude_digits by apply DecimalPos.Unsigned.to_uint_nonnil.
    now rewrite of_uint_to_uint.
Qed.

Lemma digits_are_ascii (s : string) : all_digits s = true -> is_ascii s = true.
Proof.
  induction s as [|c r IH]; simpl; [reflexivity|].
  intros [Hc Hr]%andb_prop. rewrite (IH Hr), andb_true_r.
  destruct c as [[] [] [] [] [] [] [] []]; vm_compute in Hc |- *; congruence.
Qed.

Lemma str_is_ascii (z : Z) : is_ascii (str z) = true.
Proof.
  destruct z as [|p|p]; [reflexivity | |];
    unfold str; simpl Z.to_int; simpl NilZero.string_of_int;
    rewrite string_of_uint_pos.
  - apply digits_are_ascii, string_of_uint_digits.
  - simpl. apply digits_are_ascii, string_of_uint_digits.
Qed.

(** Reading back a printed integer gives the integer, whatever the
    interpreter's tables. *)
Lemma parse_int_str (text : Text) (z : Z) : parse_int text (str z) = Some z.
Proof. unfold parse_int. rewrite str_is_ascii. apply parse_ascii_str. Qed.

Lemma int_Ok (text : Text) (s : string) (z : Z) :
  int text s = Ok z <-> parse_int text s = Some z.
Proof.
  unfold int. destruct (parse_int text s); split; intros H; try discriminate;
    inversion H; reflexivity.
Qed.

(** The first element of [s.split(sep)] is [s] truncated at the first
    separator. *)
Lemma split_head (sep : ascii) (s : string) :
  exists rest, split sep s = truncate_at sep s :: rest.
Proof.
  induction s as [|c r [rest IH]]; simpl.
  - now exists [].
  - destruct (Ascii.eqb c sep).
    + now exists (split sep r).
    + rewrite IH. now exists rest.
Qed.

Lemma index_split_0 (sep : ascii) (s : string) :
  index (split sep s) 0 = Ok (truncate_at sep s).
Proof. destruct (split_head sep s) as [rest ->]. reflexivity. Qed.

Lemma contains_middle (pre sub post : string) :
  contains sub (pre +:+ sub +:+ post).
Proof. now exists pre, post. Qed.

End PyFacts.

(** ** [AttrDict] *)

Module AttrDictFacts.
Import Py AttrDict.

Lemma dict_get_set_same (k : Key) (v : Value) (its : list (Key * Value)) :
  dict_get k (dict_set k v its) = Some v.
Proof.
  induction its as [|[k' v'] rest IH]; simpl.
  - now rewrite decide_True.
  - destruct (decide (k = k')) as [->|Hne]; simpl.
    + now rewrite decide_True.
    + now rewrite decide_False.
Qed.

Lemma dict_get_set_other (k k' : Key) (v : Value) (its : list (Key * Value)) :
  k' <> k -> dict_get k' (dict_set k v its) = dict_get k' its.
Proof.
  intros Hne. induction its as [|[k0 v0] rest IH]; simpl.
  - now rewrite decide_False.
  - destruct (decide (k = k0)) as [->|Hk]; simpl.
    + now rewrite !decide_False.
    + now rewrite IH.
Qed.

(** Assigning an existing key keeps the keys and their order. *)
Lemma dict_set_keys (k : Key) (v v0 : Value) (its : list (Key * Value)) :
  dict_get k its = Some v0 -> (dict_set k v its).*1 = its.*1.
Proof.
  induction its as [|[k' v'] rest IH]; simpl; [discriminate|].
  destruct (decide (k = k')) as [->|Hne]; simpl; [reflexivity|].
  intros H. cbn. f_equal. now apply IH.
Qed.

(** One step of a computation. *)
Lemma bind_ok {St A B} (m : SE St A) (k : A -> SE St B) (s s' : St) (a : A) :
  m s = (Ok a, s') -> SE.bind m k s = k a s'.
Proof. unfold SE.bind. now intros ->. Qed.

Lemma bind_raised {St A B} (m : SE St A) (k : A -> SE St B) (s s' : St)
    (e : PyExc) :
  m s = (Raised e, s') -> SE.bind m k s = (Raised e, s').
Proof. unfold SE.bind. now intros ->. Qed.

Lemma deref_ok (h : Heap) (loc : nat) (o : DictObj) :
  h !! loc = Some o -> deref loc h = (Ok o, h).
Proof. unfold deref. now intros ->. Qed.

Lemma new_ok (h : Heap) (m : nat) (src : DictObj) :
  h !! m = Some src ->
  new (VRef m) h = (Ok (length h), h ++ [mkDict AttrDictClass (items src) None]).
Proof. intros Hm. unfold new. now rewrite (bind_ok _ _ _ _ _ (deref_ok _ _ _ Hm)). Qed.

Lemma setitem_ok (h : Heap) (self : nat) (o : DictObj) (k : Key) (v : Value) :
  h !! self = Some o ->
  setitem self k v h =
    (Ok tt, <[self := mkDict (cls o) (dict_set k v (items o)) (own_parent o)]> h).
Proof.
  intros Hs. unfold setitem, update.
  now rewrite (bind_ok _ _ _ _ _ (deref_ok _ _ _ Hs)).
Qed.

Lemma getitem_ok (h : Heap) (self : nat) (o : DictObj) (k : Key) (v : Value) :
  h !! self = Some o -> dict_get k (items o) = Some v ->
  getitem self k h = (Ok v, h).
Proof.
  intros Hs Hk. unfold getitem.
  rewrite (bind_ok _ _ _ _ _ (deref_ok _ _ _ Hs)). now rewrite Hk.
Qed.

Lemma set_parent_ok (h : Heap) (loc : nat) (o : DictObj) (v : Value) :
  h !! loc = Some o -> cls o = AttrDictClass ->
  setattribute loc "_parent" v h =
    (Ok tt, <[loc := mkDict (cls o) (items o) (Some v)]> h).
Proof.
  intros Hl Hc. unfold setattribute.
  rewrite (bind_ok _ _ _ _ _ (deref_ok _ _ _ Hl)), Hc.
  unfold __setattr__. rewrite decide_True by reflexivity.
  unfold update. now rewrite (bind_ok _ _ _ _ _ (deref_ok _ _ _ Hl)), Hc.
Qed.

Lemma extend_parent_ok (h : Heap) (o : DictObj) (name : string) (p : list string) :
  _parent o = VStrList p -> extend_parent o name h = (Ok (p ++ [name]), h).
Proof. unfold extend_parent. now intros ->. Qed.

Lemma getattr_missing (h : Heap) (self : nat) (o : DictObj) (name : string)
    (p : list string) :
  h !! self = Some o ->
  dict_get (KStr name) (items o) = None ->
  _parent o = VStrList p ->
  __getattr__ self name h =
    (Raised (mkExc AttributeError (no_chain_message (join "." (p ++ [name])))), h).
Proof.
  intros Hself Hget Hp. unfold __getattr__.
  rewrite (bind_ok _ _ _ _ _ (deref_ok _ _ _ Hself)), Hget.
  now rewrite (bind_ok _ _ _ _ _ (extend_parent_ok _ _ _ _ Hp)).
Qed.

Lemma getattr_value (h : Heap) (self : nat) (o : DictObj) (name : string)
    (v : Value) :
  h !! self = Some o ->
  dict_get (KStr name) (items o) = Some v ->
  is_dict h v = false ->
  __getattr__ self name h = (Ok v, h).
Proof.
  intros Hself Hget Hd. unfold __getattr__.
  rewrite (bind_ok _ _ _ _ _ (deref_ok _ _ _ Hself)), Hget.
  unfold isinstance_dict at 1. unfold SE.bind at 1. rewrite Hd.
  unfold SE.bind, SE.ret. now rewrite (getitem_ok _ _ _ _ _ Hself Hget).
Qed.

Lemma getattr_dict (h : Heap) (self m : nat) (o src : DictObj) (name : string)
    (p : list string) :
  h !! self = Some o ->
  dict_get (KStr name) (items o) = Some (VRef m) ->
  h !! m = Some src ->
  _parent o = VStrList p ->
  __getattr__ self name h =
    (Ok (VRef (length h)),
     <[self := rebound o name (length h)]> h ++ [wrapped src p name]).
Proof.
  intros Hself Hget Hm Hp.
  pose proof (lookup_lt_Some _ _ _ Hself) as Hlt.
  assert (Hne : self <> length h) by lia.
  set (n := length h). set (o' := rebound o name n).
  set (N0 := mkDict AttrDictClass (items src) None).
  assert (H1 : (h ++ [N0]) !! self = Some o) by now apply lookup_app_l_Some.
  assert (H2 : (<[self := o']> (h ++ [N0])) !! self = Some o').
  { apply list_lookup_insert_eq. rewrite length_app. simpl. lia. }
  assert (H3 : (<[self := o']> (h ++ [N0])) !! n = Some N0).
  { rewrite list_lookup_insert_ne by done. now apply list_lookup_middle. }
  assert (H4 : <[n := wrapped src p name]> (<[self := o']> (h ++ [N0]))
               = <[self := o']> h ++ [wrapped src p name]).
  { rewrite insert_app_l by done.
    rewrite insert_app_r_alt by (rewrite length_insert; unfold n; lia).
    rewrite length_insert. unfold n. now rewrite Nat.sub_diag. }
  assert (H5 : (<[self := o']> h ++ [wrapped src p name]) !! self = Some o').
  { apply lookup_app_l_Some. now apply list_lookup_insert_eq. }
  assert (Hg : dict_get (KStr name) (items o') = Some (VRef n))
    by apply dict_get_set_same.
  assert (Hp' : _parent o' = VStrList p) by now rewrite <- Hp.
  unfold __getattr__.
  rewrite (bind_ok _ _ _ _ _ (deref_ok _ _ _ Hself)), Hget.
  unfold isinstance_dict at 1. unfold SE.bind at 1. unfold is_dict.
  rewrite bool_decide_eq_true_2 by (rewrite Hm; eauto).
  rewrite (bind_ok _ _ h (<[n := wrapped src p name]> (<[self := o']> (h ++ [N0]))) tt).
  - rewrite H4. now apply getitem_ok with o'.
  - rewrite (bind_ok _ _ _ _ _ (new_ok _ _ _ Hm)). fold n N0.
    rewrite (bind_ok _ _ _ _ _ (setitem_ok _ _ _ _ _ H1)).
    fold (rebound o name n). fold o'.
    rewrite (bind_ok _ _ _ _ _ (deref_ok _ _ _ H2)).
    rewrite (bind_ok _ _ _ _ _ (extend_parent_ok _ _ _ _ Hp')).
    rewrite (bind_ok _ _ _ _ _ (getitem_ok _ _ _ _ _ H2 Hg)).
    now rewrite (set_parent_ok _ _ _ _ H3).
Qed.

Lemma getattribute_falls_back (special : string -> bool) (h : Heap) (self : nat)
    (o : DictObj) (name : string) :
  h !! self = Some o -> cls o = AttrDictClass ->
  name <> "_parent" -> class_attr special name = false ->
  getattribute special self name h = __getattr__ self name h.
Proof.
  intros Hself Hcls Hname Hattr. unfold getattribute.
  rewrite (bind_ok _ _ _ _ _ (deref_ok _ _ _ Hself)), Hcls, Hattr.
  now rewrite decide_False.
Qed.

(** C8 (as amended).  For an [AttrDict] [d] whose [_parent] is a path [p],
    and a name that normal attribute lookup does not resolve (not
    [_parent], not defined by [AttrDict], not inherited from [dict]): the
    access [d.name] raises if and only if [name] is not a key of [d]; the
    exception is then an [AttributeError] whose message contains the
    dot-joined chain [p + [name]], and [d] is unchanged; when [name] is a
    key the access raises nothing and returns the value then stored under
    [name], which is the value found there unless that value is a dict. *)
Theorem attribute_access_raises_iff_missing
    (special : string -> bool) (h : Heap) (self : nat) (o : DictObj)
    (name : string) (p : list string) :
  h !! self = Some o -> cls o = AttrDictClass ->
  name <> "_parent" -> class_attr special name = false ->
  _parent o = VStrList p ->
  let access := getattribute special self name h in
  let chain := join "." (p ++ [name]) in
  ((exists e h', access = (Raised e, h')) <->
     dict_get (KStr name) (items o) = None) /\
  (dict_get (KStr name) (items o) = None ->
     access = (Raised (mkExc AttributeError (no_chain_message chain)), h) /\
     contains chain (no_chain_message chain)) /\
  (forall v, dict_get (KStr name) (items o) = Some v ->
     exists r h' o',
       access = (Ok r, h') /\ h' !! self = Some o' /\
       dict_get (KStr name) (items o') = Some r /\
       (is_dict h v = false -> r = v /\ h' = h)).
Proof.
  intros Hself Hcls Hname Hattr Hp access chain.
  assert (Hacc : access = __getattr__ self name h)
    by now apply getattribute_falls_back with o.
  assert (Hnone : dict_get (KStr name) (items o) = None ->
            access = (Raised (mkExc AttributeError (no_chain_message chain)), h)).
  { intros Hget. rewrite Hacc. now apply getattr_missing with o. }
  assert (Hsome : forall v, dict_get (KStr name) (items o) = Some v ->
            exists r h' o',
              access = (Ok r, h') /\ h' !! self = Some o' /\
              dict_get (KStr name) (items o') = Some r /\
              (is_dict h v = false -> r = v /\ h' = h)).
  { intros v Hget. destruct (is_dict h v) eqn:Hd.
    - destruct v as [| | | | |m|]; try discriminate Hd.
      simpl in Hd. apply bool_decide_eq_true_1 in Hd as [src Hm].
      exists (VRef (length h)),
        (<[self := rebound o name (length h)]> h ++ [wrapped src p name]),
        (rebound o name (length h)).
      split; [rewrite Hacc; now apply getattr_dict with m|].
      split; [|split; [apply dict_get_set_same | discriminate]].
      apply lookup_app_l_Some, list_lookup_insert_eq.
      now apply lookup_lt_Some with o.
    - exists v, h, o. split; [rewrite Hacc; now apply getattr_value with o|].
      repeat split; assumption. }
  split; [|split; [|exact Hsome]].
  - split.
    + intros (e & h' & Hr). destruct (dict_get (KStr name) (items o)) as [v|] eqn:Hget;
        [|reflexivity].
      destruct (Hsome v eq_refl) as (r & h'' & o' & Hok & _). congruence.
    + intros Hget. rewrite (Hnone Hget). eauto.
  - intros Hget. split; [now apply Hnone|]. apply PyFacts.contains_middle.
Qed.

Lemma attribute_access_witness :
  getattribute cpython 0 "nope" Fake.conf_heap =
    (Raised (mkExc AttributeError "dict (AttrDict) has no chain of attributes 'nope'"),
     Fake.conf_heap).
Proof.
  assert (Hname : "nope" <> "_parent") by discriminate.
  pose proof (attribute_access_raises_iff_missing cpython Fake.conf_heap 0
                (mkDict AttrDictClass [(KStr "model", VRef 1)] None) "nope" []
                eq_refl eq_refl Hname eq_refl eq_refl) as H.
  exact (proj1 (proj1 (proj2 H) eq_refl)).
Defined.

(** C8 as stated fails: [dump_to_stdout] is not a key of the dictionary,
    yet [d.dump_to_stdout] raises nothing, because the class defines that
    name and [__getattr__] is never reached. *)
Lemma class_attribute_shadows_missing_key :
  dict_get (KStr "dump_to_stdout") [(KStr "model", VRef 1)] = None /\
  "dump_to_stdout" <> "_parent" /\
  getattribute cpython 0 "dump_to_stdout" Fake.conf_heap =
    (Ok (VClassAttr 0 "dump_to_stdout"), Fake.conf_heap).
Proof. repeat split; discriminate. Qed.

(** C9 (as amended).  Let [d] be an [AttrDict] whose [_parent] is a path
    [p], and [name] a name that normal attribute lookup does not resolve
    and that is a key of [d] whose value is a dict.  Reading [d.name]
    creates a new [AttrDict] holding the items of that dict, with [_parent]
    path [p + [name]], and stores it under [name] in place; the other keys
    of [d], the order of its keys and every other object (the original dict
    included) are unchanged.  A subsequent read of [d.name] returns the
    [AttrDict] then stored under [name], which has the same items and the
    same [_parent] path. *)
Theorem attribute_read_converts_dict
    (special : string -> bool) (h : Heap) (self m : nat) (o src : DictObj)
    (name : string) (p : list string) :
  h !! self = Some o -> cls o = AttrDictClass ->
  name <> "_parent" -> class_attr special name = false ->
  _parent o = VStrList p ->
  dict_get (KStr name) (items o) = Some (VRef m) ->
  h !! m = Some src ->
  let n := length h in
  exists h1 o1,
    getattribute special self name h = (Ok (VRef n), h1) /\
    h1 !! n = Some (wrapped src p name) /\
    h1 !! self = Some o1 /\ cls o1 = AttrDictClass /\ _parent o1 = VStrList p /\
    dict_get (KStr name) (items o1) = Some (VRef n) /\
    (forall k, k <> KStr name -> dict_get k (items o1) = dict_get k (items o)) /\
    (items o1).*1 = (items o).*1 /\
    (forall l, l <> self -> (l < n)%nat -> h1 !! l = h !! l) /\
    exists n2 h2 o2,
      getattribute special self name h1 = (Ok (VRef n2), h2) /\
      h2 !! n2 = Some (wrapped src p name) /\
      h2 !! self = Some o2 /\
      dict_get (KStr name) (items o2) = Some (VRef n2).
Proof.
  intros Hself Hcls Hname Hattr Hp Hget Hm n.
  pose proof (lookup_lt_Some _ _ _ Hself) as Hlt.
  set (o1 := rebound o name n).
  set (h1 := <[self := o1]> h ++ [wrapped src p name]).
  assert (Hlen : length h1 = S n).
  { unfold h1. rewrite length_app, length_insert. simpl. unfold n. lia. }
  assert (Hn1 : h1 !! n = Some (wrapped src p name)).
  { unfold h1. apply list_lookup_middle. now rewrite length_insert. }
  assert (Hs1 : h1 !! self = Some o1).
  { unfold h1. now apply lookup_app_l_Some, list_lookup_insert_eq. }
  assert (Hg1 : dict_get (KStr name) (items o1) = Some (VRef n))
    by apply dict_get_set_same.
  assert (Hp1 : _parent o1 = VStrList p) by now rewrite <- Hp.
  exists h1, o1.
  split.
  { rewrite (getattribute_falls_back special h self o) by assumption.
    now apply getattr_dict with m. }
  split; [exact Hn1|]. split; [exact Hs1|]. split; [exact Hcls|].
  split; [exact Hp1|]. split; [exact Hg1|].
  split; [intros k Hk; now apply dict_get_set_other|].
  split; [now apply dict_set_keys with (VRef m)|].
  split.
  { intros l Hl Hln. unfold h1. rewrite lookup_app_l by now rewrite length_insert.
    now apply list_lookup_insert_ne. }
  exists (length h1), (<[self := rebound o1 name (length h1)]> h1 ++ [wrapped src p name]),
    (rebound o1 name (length h1)).
  split.
  { rewrite (getattribute_falls_back special h1 self o1) by assumption.
    exact (getattr_dict h1 self n o1 (wrapped src p name) name p Hs1 Hg1 Hn1 Hp1). }
  split; [apply list_lookup_middle; now rewrite length_insert|].
  split; [|apply dict_get_set_same].
  apply lookup_app_l_Some, list_lookup_insert_eq. rewrite Hlen. lia.
Qed.

Lemma attribute_read_witness :
  exists h1 n2 h2,
    getattribute cpython 0 "model" Fake.conf_heap = (Ok (VRef 2), h1) /\
    getattribute cpython 0 "model" h1 = (Ok (VRef n2), h2) /\
    h2 !! n2 = h1 !! 2%nat.
Proof.
  assert (Hname : "model" <> "_parent") by discriminate.
  destruct (attribute_read_converts_dict cpython Fake.conf_heap 0 1
              (mkDict AttrDictClass [(KStr "model", VRef 1)] None)
              (mkDict PlainDict [(KStr "depth", VInt 3)] None) "model" []
              eq_refl eq_refl Hname eq_refl eq_refl eq_refl eq_refl)
    as (h1 & o1 & H1 & H2 & _ & _ & _ & _ & _ & _ & _ & n2 & h2 & o2 & H3 & H4 & _).
  exists h1, n2, h2. split; [exact H1|]. split; [exact H3|].
  exact (eq_trans H4 (eq_sym H2)).
Defined.

(** C9 as stated fails.  A key that the class shadows is not converted:
    with [{'items': {'a': 1}}], reading [d.items] gives the method of
    [dict] and leaves the plain dict under the key.  And a second read of a
    converted key does not return the object the first read returned. *)
Lemma read_keeps_shadowed_key_and_rewraps :
  let first := getattribute cpython 0 "model" Fake.conf_heap in
  let second := getattribute cpython 0 "model" first.2 in
  (Fake.shadowed_heap !! 1%nat = Some (mkDict PlainDict [(KStr "a", VInt 1)] None) /\
   getattribute cpython 0 "items" Fake.shadowed_heap
     = (Ok (VClassAttr 0 "items"), Fake.shadowed_heap)) /\
  (Fake.conf_heap !! 1%nat = Some (mkDict PlainDict [(KStr "depth", VInt 3)] None) /\
   first.1 = Ok (VRef 2) /\ second.1 = Ok (VRef 3) /\ second.1 <> first.1).
Proof. repeat split; discriminate. Qed.

End AttrDictFacts.

(** ** Framework calls and the world *)

Module WorldFacts.
Import Py Nnabla Comm.
Export AttrDictFacts Outcomes.

Section Steps.
Context {S : Type} (fw : Framework S).

Lemma extern_run (c : Call) (w : World S) :
  extern fw c w = ((fw c (nnabla w)).1, advance w (fw c (nnabla w)).2 [c]).
Proof. unfold extern. now destruct (fw c (nnabla w)). Qed.

Lemma extern_ok (c : Call) (w : World S) (a : answer c) (s' : S) :
  fw c (nnabla w) = (Ok a, s') -> extern fw c w = (Ok a, advance w s' [c]).
Proof. intros H. now rewrite extern_run, H. Qed.

Lemma extern_raised (c : Call) (w : World S) (e : PyExc) (s' : S) :
  fw c (nnabla w) = (Raised e, s') -> extern fw c w = (Raised e, advance w s' [c]).
Proof. intros H. now rewrite extern_run, H. Qed.

Lemma advance_advance (w : World S) (s1 s2 : S) (cs1 cs2 : list Call) :
  advance (advance w s1 cs1) s2 cs2 = advance w s2 (cs1 ++ cs2).
Proof. unfold advance. simpl. now rewrite app_assoc. Qed.

Lemma on_heap_run {A} (m : SE Heap A) (w : World S) :
  on_heap m w = ((m (heap w)).1, with_heap w (m (heap w)).2).
Proof. unfold on_heap, SE.zoom. now destruct (m (heap w)). Qed.

Lemma init_try_outcome (ctx : Context) (w : World S) :
  exists r s' cs,
    TryOutcome fw ctx (nnabla w) r s' cs /\
    init_try fw ctx w = (r, advance w s' cs).
Proof.
  unfold init_try.
  destruct (fw (MultiProcessDataParallelCommunicator ctx) (nnabla w))
    as [[c|e] s1] eqn:H1.
  2:{ eexists _, _, _. split; [eapply try_constructor_raises; eassumption|].
      now rewrite (bind_raised _ _ _ _ _ (extern_raised _ _ _ _ H1)). }
  rewrite (bind_ok _ _ _ _ _ (extern_ok _ _ _ _ H1)).
  destruct (fw (comm_init c) s1) as [[[]|e] s2] eqn:H2.
  2:{ eexists _, _, _. split; [eapply try_init_raises; eassumption|].
      erewrite bind_raised by (apply extern_raised; exact H2).
      now rewrite advance_advance. }
  erewrite bind_ok by (apply extern_ok; exact H2).
  rewrite advance_advance.
  destruct (fw (comm_size c) s2) as [[n|e] s3] eqn:H3.
  2:{ eexists _, _, _. split; [eapply try_size_raises; eassumption|].
      erewrite bind_raised by (apply extern_raised; exact H3).
      now rewrite advance_advance. }
  erewrite bind_ok by (apply extern_ok; exact H3).
  rewrite advance_advance.
  destruct (fw (comm_rank c) s3) as [[r|e] s4] eqn:H4.
  2:{ eexists _, _, _. split; [eapply try_rank_raises; eassumption|].
      erewrite bind_raised by (apply extern_raised; exact H4).
      now rewrite advance_advance. }
  erewrite bind_ok by (apply extern_ok; exact H4).
  rewrite advance_advance.
  destruct (fw (comm_local_rank c) s4) as [[l|e] s5] eqn:H5.
  2:{ eexists _, _, _. split; [eapply try_local_rank_raises; eassumption|].
      erewrite bind_raised by (apply extern_raised; exact H5).
      now rewrite advance_advance. }
  erewrite bind_ok by (apply extern_ok; exact H5).
  rewrite advance_advance.
  eexists _, _, _. split; [eapply try_connected; eassumption|]. reflexivity.
Qed.

End Steps.

End WorldFacts.

(** ** [CommunicatorWrapper.__init__] *)

Module InitFacts.
Import Py Nnabla Comm.
Export WorldFacts.

Section Init.
Context {S : Type} (text : Text) (fw : Framework S).

Lemma create_float_context_run (ctx : Context) (w : World S) :
  create_float_context fw ctx w =
    match backend ctx with
    | [] => (Raised (mkExc IndexError "list index out of range"), w)
    | b :: _ => extern fw (float_call b (device_id ctx)) w
    end.
Proof.
  unfold create_float_context, SE.bind, SE.lift.
  destruct (backend ctx) as [|b bs]; [reflexivity|].
  change (index (b :: bs) 0) with (Ok b). cbv beta iota.
  now rewrite PyFacts.index_split_0.
Qed.

(** The [try] statement as a whole. *)
Lemma try_statement_outcome (ctx : Context) (w : World S) :
  exists r s' cs,
    TryOutcome fw ctx (nnabla w) r s' cs /\
    SE.try_except (init_try fw ctx) init_except w =
      match r with
      | Ok a => (Ok a, advance w s' cs)
      | Raised e =>
          if is_Exception (exc_class e)
          then (Ok (1, 0, 0, None),
                printed (advance w s' cs) [exc_msg e; no_communicator_message])
          else (Raised e, advance w s' cs)
      end.
Proof.
  destruct (init_try_outcome fw ctx w) as (r & s' & cs & Hout & Hrun).
  exists r, s', cs. split; [exact Hout|].
  unfold SE.try_except. rewrite Hrun. destruct r as [a|e]; [reflexivity|].
  destruct (is_Exception (exc_class e)); [|reflexivity].
  unfold init_except, print, SE.bind, SE.modify, SE.ret, printed. simpl.
  now rewrite <- app_assoc.
Qed.

Lemma try_raised_by_framework (ctx : Context) (s s' : S) (e : PyExc)
    (cs : list Call) :
  TryOutcome fw ctx s (Raised e) s' cs ->
  exists c s0, fw c s0 = (Raised e, s').
Proof. inversion 1; subst; eauto. Qed.

(** [__init__] after the [try] statement. *)
Lemma init_run (ctx : Context) (w : World S) :
  __init__ text fw ctx w =
    match SE.try_except (init_try fw ctx) init_except w with
    | (Raised e, w1) => (Raised e, w1)
    | (Ok (n, r, l, c), w1) =>
        match int text (device_id ctx) with
        | Raised e => (Raised e, w1)
        | Ok d =>
            match backend ctx with
            | [] => (Raised (mkExc IndexError "list index out of range"), w1)
            | b :: _ =>
                let call := float_call b (str (d + l)) in
                match fw call (nnabla w1) with
                | (Raised e, s2) => (Raised e, advance w1 s2 [call])
                | (Ok cf, s2) =>
                    (Ok (mkWrapper n r l c (shifted ctx d l) cf),
                     logged (advance w1 s2 [call]) (logger_level w1)
                       [info (using_gpu_message (str (d + l)) r)])
                end
            end
        end
    end.
Proof.
  unfold __init__. unfold SE.bind at 1.
  destruct (SE.try_except (init_try fw ctx) init_except w) as [[[[[n r] l] c]|e] w1];
    [|reflexivity].
  unfold SE.bind at 1, SE.lift.
  destruct (int text (device_id ctx)) as [d|e]; [|reflexivity].
  unfold SE.bind at 1. rewrite create_float_context_run. simpl backend.
  unfold shifted.
  destruct (backend ctx) as [|b bs]; [reflexivity|].
  simpl device_id. rewrite extern_run.
  destruct (fw (float_call b (str (d + l))) (nnabla w1)) as [[cf|e] s2];
    reflexivity.
Qed.

(** What a completed [__init__] went through. *)
Lemma init_inv (ctx : Context) (w w' : World S) (self : CommunicatorWrapper) :
  __init__ text fw ctx w = (Ok self, w') ->
  exists w1 d b bs s2,
    SE.try_except (init_try fw ctx) init_except w =
      (Ok (n_procs self, rank self, local_rank self, comm self), w1) /\
    parse_int text (device_id ctx) = Some d /\
    backend ctx = b :: bs /\
    Comm.ctx self = shifted ctx d (local_rank self) /\
    fw (float_call b (str (d + local_rank self))) (nnabla w1)
      = (Ok (ctx_float self), s2) /\
    w' = logged (advance w1 s2 [float_call b (str (d + local_rank self))])
           (logger_level w1)
           [info (using_gpu_message (str (d + local_rank self)) (rank self))].
Proof.
  rewrite init_run.
  destruct (SE.try_except (init_try fw ctx) init_except w) as [[[[[n r] l] c]|e] w1];
    [|discriminate].
  destruct (int text (device_id ctx)) as [d|e] eqn:Hd; [|discriminate].
  apply PyFacts.int_Ok in Hd.
  destruct (backend ctx) as [|b bs] eqn:Hb; [discriminate|].
  cbv zeta.
  destruct (fw (float_call b (str (d + l))) (nnabla w1)) as [[cf|e] s2] eqn:Hf;
    [|discriminate].
  intros [= <- <-]. simpl. exists w1, d, b, bs, s2. repeat split; auto.
Qed.

(** Without a communicator the wrapper is in single-process mode. *)
Lemma init_invariant (ctx : Context) (w w' : World S) (self : CommunicatorWrapper) :
  __init__ text fw ctx w = (Ok self, w') ->
  comm self = None -> single_process self.
Proof.
  intros Hinit Hnone.
  destruct (init_inv _ _ _ _ Hinit) as (w1 & d & b & bs & s2 & Htry & _).
  destruct (try_statement_outcome ctx w) as (r & s' & cs & Hout & Hrun).
  rewrite Hrun in Htry. destruct r as [a|e].
  - inversion Htry; subst. inversion Hout; subst. congruence.
  - destruct (is_Exception (exc_class e)); [|discriminate].
    inversion Htry as [[Hn Hr Hl Hc Hw]]. repeat split; auto.
Qed.

Lemma init_has_communicator (ctx : Context) (w w' : World S)
    (self : CommunicatorWrapper) :
  __init__ text fw ctx w = (Ok self, w') ->
  n_procs self <> 1 -> exists c, comm self = Some c.
Proof.
  intros Hinit Hn. destruct (comm self) as [c|] eqn:Hc; [eauto|].
  destruct (init_invariant _ _ _ _ Hinit Hc) as [H1 _]. contradiction.
Qed.

End Init.

End InitFacts.

(** ** The wrapper's constructor: claims C1, C4 and C7 *)

Module ConstructorClaims.
Import Py Nnabla Comm.
Export InitFacts.

(** C1 (as amended).  Let [ctx] have a device id that [int] accepts (an
    integer literal: [parse_int text] gives its value, [text] being the
    interpreter's character tables, any) and a non-empty backend list, let
    the framework create the
    extension context, and let it raise only exceptions derived from
    [Exception].  Then [__init__] completes normally, and: if constructing
    the communicator raises, or constructing succeeds and [comm.init()]
    raises, the wrapper is in single-process mode ([n_procs = 1],
    [rank = 0], [local_rank = 0], [comm = None]); if constructing,
    initializing and reading [size], [rank] and [local_rank] all return,
    then [n_procs], [rank] and [local_rank] are the values read and [comm]
    is the communicator. *)
Theorem init_falls_back_or_connects {S : Type} (text : Text)
    (fw : Framework S)
    (ctx : Context) (w : World S) (d : Z) (b : string) (bs : list string) :
  parse_int text (device_id ctx) = Some d ->
  backend ctx = b :: bs ->
  (forall name kw s, exists cf s',
      fw (get_extension_context name kw) s = (Ok cf, s')) ->
  (forall c s e s', fw c s = (Raised e, s') -> is_Exception (exc_class e) = true) ->
  exists self w',
    __init__ text fw ctx w = (Ok self, w') /\
    (forall e s1,
        fw (MultiProcessDataParallelCommunicator ctx) (nnabla w) = (Raised e, s1) ->
        single_process self) /\
    (forall (c : Nnabla.Comm) s1 e s2,
        fw (MultiProcessDataParallelCommunicator ctx) (nnabla w) = (Ok c, s1) ->
        fw (comm_init c) s1 = (Raised e, s2) ->
        single_process self) /\
    (forall (c : Nnabla.Comm) s1 s2 n s3 r s4 l s5,
        fw (MultiProcessDataParallelCommunicator ctx) (nnabla w) = (Ok c, s1) ->
        fw (comm_init c) s1 = (Ok tt, s2) ->
        fw (comm_size c) s2 = (Ok n, s3) ->
        fw (comm_rank c) s3 = (Ok r, s4) ->
        fw (comm_local_rank c) s4 = (Ok l, s5) ->
        n_procs self = n /\ rank self = r /\ local_rank self = l /\
        comm self = Some c).
Proof.
  intros Hd Hb Hctx Hexc.
  destruct (try_statement_outcome fw ctx w) as (r & s' & cs & Hout & Hrun).
  rewrite init_run, Hrun. unfold int. rewrite Hd, Hb.
  destruct r as [[[[n rk] l] c]|e].
  - destruct (Hctx (VStr (truncate_at ":" b)) [("device_id", VStr (str (d + l)))] s')
      as (cf & s2 & Hcf).
    cbv zeta. unfold float_call. simpl (nnabla _). rewrite Hcf.
    eexists _, _. split; [reflexivity|]. simpl.
    inversion Hout; subst.
    split; [|split]; intros; same_call; auto.
  - destruct (try_raised_by_framework fw _ _ _ _ _ Hout) as (c0 & s0 & Hraise).
    rewrite (Hexc _ _ _ _ Hraise).
    destruct (Hctx (VStr (truncate_at ":" b)) [("device_id", VStr (str (d + 0)))] s')
      as (cf & s2 & Hcf).
    cbv zeta. unfold float_call. simpl (nnabla _). rewrite Hcf.
    eexists _, _. split; [reflexivity|]. simpl.
    split; [|split]; intros; try (repeat split; reflexivity).
    inversion Hout; subst; same_call.
Qed.

Lemma fake_creates_contexts (name : Value) (kw : list (string * Value))
    (s : Fake.State) :
  exists cf s', Fake.fw (get_extension_context name kw) s = (Ok cf, s').
Proof. eexists _, _. reflexivity. Qed.

Lemma fake_raises_exceptions (c : Call) (s : Fake.State) (e : PyExc)
    (s' : Fake.State) :
  Fake.fw c s = (Raised e, s') -> is_Exception (exc_class e) = true.
Proof.
  destruct c; simpl; try discriminate.
  destruct s; [discriminate|]. now intros [= <- _].
Defined.

Lemma init_falls_back_witness :
  exists self w',
    __init__ Fake.text Fake.fw Fake.gpu0 (Fake.world None []) = (Ok self, w') /\
    single_process self.
Proof.
  destruct (init_falls_back_or_connects Fake.text Fake.fw Fake.gpu0 (Fake.world None [])
              0 "cudnn:float" [] eq_refl eq_refl
              fake_creates_contexts fake_raises_exceptions)
    as (self & w' & Hrun & Hfail & _).
  exists self, w'. split; [exact Hrun|].
  exact (Hfail (mkExc RuntimeError "MPI is not available") None eq_refl).
Defined.

(** C1 as stated fails: with no MPI runtime the constructor of the
    communicator raises, the fallback is taken, and [__init__] then raises
    [ValueError] at [int(ctx.device_id)] for a context whose device id is
    not an integer literal. *)
Lemma init_raises_after_fallback :
  (Fake.fw (MultiProcessDataParallelCommunicator Fake.no_device) None).1
    = Raised (mkExc RuntimeError "MPI is not available") /\
  (__init__ Fake.text Fake.fw Fake.no_device (Fake.world None [])).1
    = Raised (mkExc ValueError "invalid literal for int() with base 10: ''").
Proof. split; reflexivity. Qed.

(** C4.  After [__init__] the stored context's device id is the decimal
    string of the integer value of the original device id plus the local
    rank; its integer value is that sum, and in the single-process
    fallback, where the local rank is 0, it is the integer value of the
    original device id. *)
Theorem init_shifts_device_id {S : Type} (text : Text)
    (fw : Framework S) (ctx : Context)
    (w w' : World S) (self : CommunicatorWrapper) :
  __init__ text fw ctx w = (Ok self, w') ->
  exists d,
    parse_int text (device_id ctx) = Some d /\
    device_id (Comm.ctx self) = str (d + local_rank self) /\
    parse_int text (device_id (Comm.ctx self)) = Some (d + local_rank self) /\
    backend (Comm.ctx self) = backend ctx /\
    (comm self = None ->
     local_rank self = 0 /\ parse_int text (device_id (Comm.ctx self)) = Some d).
Proof.
  intros Hinit.
  destruct (init_inv _ fw _ _ _ _ Hinit) as (w1 & d & b & bs & s2 & _ & Hd & _ & Hctx & _).
  exists d. rewrite Hctx. simpl. split; [exact Hd|]. split; [reflexivity|].
  split; [apply PyFacts.parse_int_str|]. split; [reflexivity|].
  intros Hnone. destruct (init_invariant _ fw _ _ _ _ Hinit Hnone) as (_ & _ & Hl & _).
  split; [exact Hl|]. rewrite Hl, Z.add_0_r. apply PyFacts.parse_int_str.
Qed.

Lemma init_shifts_device_id_witness :
  exists d,
    parse_int Fake.text (device_id Fake.gpu0) = Some d /\
    device_id (Comm.ctx Fake.connected) = str (d + local_rank Fake.connected) /\
    parse_int Fake.text (device_id (Comm.ctx Fake.connected))
      = Some (d + local_rank Fake.connected) /\
    backend (Comm.ctx Fake.connected) = backend Fake.gpu0 /\
    (comm Fake.connected = None ->
     local_rank Fake.connected = 0 /\
     parse_int Fake.text (device_id (Comm.ctx Fake.connected)) = Some d).
Proof.
  exact (init_shifts_device_id Fake.text Fake.fw Fake.gpu0 (Fake.world Fake.mpi [])
           (__init__ Fake.text Fake.fw Fake.gpu0 (Fake.world Fake.mpi [])).2
           Fake.connected eq_refl).
Defined.

(** C7.  After [__init__], [ctx_float] is the framework's answer to
    [get_extension_context] called with the first entry of the stored
    context's backend list truncated at the first [':'] and with the
    device id of the stored context, which already includes the local
    rank; it is the last framework call [__init__] makes. *)
Theorem init_float_context {S : Type} (text : Text)
    (fw : Framework S) (ctx : Context)
    (w w' : World S) (self : CommunicatorWrapper) :
  __init__ text fw ctx w = (Ok self, w') ->
  exists b bs s before,
    backend (Comm.ctx self) = b :: bs /\
    index (split ":" b) 0 = Ok (truncate_at ":" b) /\
    fw (get_extension_context (VStr (truncate_at ":" b))
          [("device_id", VStr (device_id (Comm.ctx self)))]) s
      = (Ok (ctx_float self), nnabla w') /\
    calls w' =
      before ++ [get_extension_context (VStr (truncate_at ":" b))
                   [("device_id", VStr (device_id (Comm.ctx self)))]].
Proof.
  intros Hinit.
  destruct (init_inv _ fw _ _ _ _ Hinit)
    as (w1 & d & b & bs & s2 & _ & _ & Hb & Hctx & Hcall & ->).
  exists b, bs, (nnabla w1), (calls w1).
  rewrite Hctx. simpl. split; [exact Hb|].
  split; [apply PyFacts.index_split_0|]. split; [exact Hcall | reflexivity].
Qed.

Lemma init_float_context_witness :
  exists b bs s before,
    backend (Comm.ctx Fake.connected) = b :: bs /\
    index (split ":" b) 0 = Ok (truncate_at ":" b) /\
    Fake.fw (get_extension_context (VStr (truncate_at ":" b))
          [("device_id", VStr (device_id (Comm.ctx Fake.connected)))]) s
      = (Ok (ctx_float Fake.connected),
         nnabla (__init__ Fake.text Fake.fw Fake.gpu0 (Fake.world Fake.mpi [])).2) /\
    calls (__init__ Fake.text Fake.fw Fake.gpu0 (Fake.world Fake.mpi [])).2 =
      before ++ [get_extension_context (VStr (truncate_at ":" b))
                   [("device_id", VStr (device_id (Comm.ctx Fake.connected)))]].
Proof.
  exact (init_float_context Fake.text Fake.fw Fake.gpu0 (Fake.world Fake.mpi [])
           (__init__ Fake.text Fake.fw Fake.gpu0 (Fake.world Fake.mpi [])).2
           Fake.connected eq_refl).
Defined.

End ConstructorClaims.

(** ** The wrapper's methods: claims C2, C3, C5 and C6 *)

Module MethodClaims.
Import Py Nnabla Comm.
Export InitFacts.

(** The list the code builds is the grad of every value. *)
Lemma grads_every_value (parameters : list (string * Var)) :
  grads parameters = grad_of_every_value parameters.
Proof. unfold grads, grad_of_every_value. now rewrite map_map. Qed.

Section Methods.
Context {S : Type} (fw : Framework S).

Lemma the_comm_ok (self : CommunicatorWrapper) (c : Nnabla.Comm)
    (method : string) (w : World S) :
  comm self = Some c -> the_comm self method w = (Ok c, w).
Proof. unfold the_comm. now intros ->. Qed.

Lemma all_reduce_single (self : CommunicatorWrapper) (params : list NdArray)
    (division inplace : bool) (w : World S) :
  n_procs self = 1 -> all_reduce fw self params division inplace w = (Ok tt, w).
Proof. intros Hn. unfold all_reduce. now rewrite Hn. Qed.

Lemma all_reduce_forwarded (self : CommunicatorWrapper) (c : Nnabla.Comm)
    (params : list NdArray) (division inplace : bool) (w : World S) :
  n_procs self <> 1 -> comm self = Some c ->
  all_reduce fw self params division inplace w
    = extern fw (comm_all_reduce c params division inplace) w.
Proof.
  intros Hn Hc. unfold all_reduce.
  destruct (Z.eqb_spec (n_procs self) 1) as [|_]; [contradiction|].
  now rewrite (bind_ok _ _ _ _ _ (the_comm_ok _ _ _ _ Hc)).
Qed.

(** The loop of [all_reduced_solver_update_all] stops at the first
    exception. *)
Lemma for_in_raised {A} (body : A -> SE (World S) unit) (xs : list A)
    (e : PyExc) (w : World S) :
  fold_left
    (fun (acc : Outcome unit * World S) x =>
       match acc with
       | (Ok _, s') => body x s'
       | (Raised e, s') => (Raised e, s')
       end)
    xs (Raised e, w) = (Raised e, w).
Proof. induction xs as [|x xs IH]; simpl; auto. Qed.

Lemma for_in_cons {A} (body : A -> SE (World S) unit) (x : A) (xs : list A)
    (w : World S) :
  SE.for_in (x :: xs) body w = (body x ;; SE.for_in xs body) w.
Proof.
  unfold SE.for_in, SE.bind. simpl.
  destruct (body x w) as [[[]|e] w1]; [reflexivity|]. apply for_in_raised.
Qed.

End Methods.

(** C2.  For a wrapper built by [__init__]: when [n_procs == 1],
    [all_reduce] returns at once and leaves the world, the trace of
    framework calls included, as it was; otherwise it is the single call
    [comm.all_reduce(params, division, inplace)] on the wrapped
    communicator, with the given list and flags, and that call is the only
    one added to the trace. *)
Theorem all_reduce_skips_or_forwards {S : Type} (text : Text)
    (fw : Framework S)
    (ctx : Context) (w0 w1 : World S) (self : CommunicatorWrapper)
    (params : list NdArray) (division inplace : bool) (w : World S) :
  __init__ text fw ctx w0 = (Ok self, w1) ->
  (n_procs self = 1 ->
     all_reduce fw self params division inplace w = (Ok tt, w)) /\
  (n_procs self <> 1 ->
     exists c,
       comm self = Some c /\
       all_reduce fw self params division inplace w
         = extern fw (comm_all_reduce c params division inplace) w /\
       calls (all_reduce fw self params division inplace w).2
         = calls w ++ [comm_all_reduce c params division inplace]).
Proof.
  intros Hinit. split.
  - apply all_reduce_single.
  - intros Hn. destruct (init_has_communicator _ fw _ _ _ _ Hinit Hn) as [c Hc].
    exists c. split; [exact Hc|].
    rewrite (all_reduce_forwarded fw _ _ _ _ _ _ Hn Hc).
    split; [reflexivity|]. now rewrite extern_run.
Qed.

Lemma all_reduce_witness :
  (n_procs Fake.connected = 1 ->
     all_reduce Fake.fw Fake.connected [2%nat; 4%nat] false true
       (Fake.world Fake.mpi []) = (Ok tt, Fake.world Fake.mpi [])) /\
  (n_procs Fake.connected <> 1 ->
     exists c,
       comm Fake.connected = Some c /\
       all_reduce Fake.fw Fake.connected [2%nat; 4%nat] false true
         (Fake.world Fake.mpi [])
         = extern Fake.fw (comm_all_reduce c [2%nat; 4%nat] false true)
             (Fake.world Fake.mpi []) /\
       calls (all_reduce Fake.fw Fake.connected [2%nat; 4%nat] false true
                (Fake.world Fake.mpi [])).2
         = calls (Fake.world Fake.mpi [])
             ++ [comm_all_reduce c [2%nat; 4%nat] false true]).
Proof.
  exact (all_reduce_skips_or_forwards Fake.text Fake.fw Fake.gpu0 (Fake.world Fake.mpi [])
           (__init__ Fake.text Fake.fw Fake.gpu0 (Fake.world Fake.mpi [])).2
           Fake.connected [2%nat; 4%nat] false true (Fake.world Fake.mpi [])
           eq_refl).
Defined.

(** C3.  For a wrapper built by [__init__], with [division] defaulting to
    [False] and [inplace] to [True]: in single-process mode
    [all_reduced_solver_update] is the single call [solver.update()] and
    no all-reduce happens; with [n_procs > 1] it first reads
    [solver.get_parameters()], all-reduces the list of the [grad] of every
    value with the given flags, and then calls [solver.update()] exactly
    once, these three calls being the ones added to the trace in that
    order; when reading the parameters or the all-reduce raises, the
    exception propagates and [solver.update()] is not called. *)
Theorem solver_update_after_all_reduce {S : Type} (text : Text)
    (fw : Framework S)
    (ctx : Context) (w0 w1 : World S) (self : CommunicatorWrapper)
    (solver : Solver) (division inplace : option bool) (w : World S) :
  __init__ text fw ctx w0 = (Ok self, w1) ->
  let d := default false division in
  let i := default true inplace in
  (n_procs self <= 1 ->
     all_reduced_solver_update fw self solver division inplace w
       = extern fw (solver_update solver) w /\
     calls (all_reduced_solver_update fw self solver division inplace w).2
       = calls w ++ [solver_update solver]) /\
  (1 < n_procs self ->
     exists c,
       comm self = Some c /\
       (forall ps s1 s2,
           fw (solver_get_parameters solver) (nnabla w) = (Ok ps, s1) ->
           fw (comm_all_reduce c (grad_of_every_value ps) d i) s1 = (Ok tt, s2) ->
           all_reduced_solver_update fw self solver division inplace w
             = ((fw (solver_update solver) s2).1,
                advance w (fw (solver_update solver) s2).2
                  [solver_get_parameters solver;
                   comm_all_reduce c (grad_of_every_value ps) d i;
                   solver_update solver])) /\
       (forall e s1,
           fw (solver_get_parameters solver) (nnabla w) = (Raised e, s1) ->
           all_reduced_solver_update fw self solver division inplace w
             = (Raised e, advance w s1 [solver_get_parameters solver])) /\
       (forall ps s1 e s2,
           fw (solver_get_parameters solver) (nnabla w) = (Ok ps, s1) ->
           fw (comm_all_reduce c (grad_of_every_value ps) d i) s1 = (Raised e, s2) ->
           all_reduced_solver_update fw self solver division inplace w
             = (Raised e,
                advance w s2 [solver_get_parameters solver;
                              comm_all_reduce c (grad_of_every_value ps) d i]))).
Proof.
  intros Hinit d i. split.
  - intros Hn. unfold all_reduced_solver_update.
    destruct (Z.ltb_spec 1 (n_procs self)) as [|_]; [lia|].
    assert (Hrun : (SE.ret tt ;; extern fw (solver_update solver)) w
                   = extern fw (solver_update solver) w) by reflexivity.
    rewrite Hrun. split; [reflexivity|]. now rewrite extern_run.
  - intros Hn.
    assert (Hne : n_procs self <> 1) by lia.
    destruct (init_has_communicator _ fw _ _ _ _ Hinit Hne) as [c Hc].
    exists c. split; [exact Hc|].
    unfold all_reduced_solver_update. fold d i.
    destruct (Z.ltb_spec 1 (n_procs self)) as [_|]; [|lia].
    split; [|split].
    + intros ps s1 s2 Hps Hred.
      pose proof (grads_every_value ps) as Hg. rewrite <- Hg in *. clear Hg.
      pose proof (extern_ok fw _ w _ _ Hps) as E1.
      pose proof (extern_ok fw (comm_all_reduce c (grads ps) d i)
                    (advance w s1 [solver_get_parameters solver]) tt s2 Hred) as E2.
      rewrite advance_advance in E2.
      rewrite (bind_ok _ _ w _ tt
                 (eq_trans (bind_ok _ _ _ _ _ E1)
                    (eq_trans (all_reduce_forwarded fw _ _ _ _ _ _ Hne Hc) E2))).
      rewrite extern_run, !advance_advance. reflexivity.
    + intros e s1 Hps.
      pose proof (extern_raised fw _ w _ _ Hps) as E1.
      now rewrite (bind_raised _ _ w _ e (bind_raised _ _ _ _ _ E1)).
    + intros ps s1 e s2 Hps Hred.
      pose proof (grads_every_value ps) as Hg. rewrite <- Hg in *. clear Hg.
      pose proof (extern_ok fw _ w _ _ Hps) as E1.
      pose proof (extern_raised fw (comm_all_reduce c (grads ps) d i)
                    (advance w s1 [solver_get_parameters solver]) e s2 Hred) as E2.
      rewrite advance_advance in E2.
      now rewrite (bind_raised _ _ w _ e
                     (eq_trans (bind_ok _ _ _ _ _ E1)
                        (eq_trans (all_reduce_forwarded fw _ _ _ _ _ _ Hne Hc) E2))).
Qed.

Lemma solver_update_witness :
  all_reduced_solver_update Fake.fw Fake.connected 5%nat None None
    (Fake.world Fake.mpi [])
  = (Ok tt,
     advance (Fake.world Fake.mpi []) Fake.mpi
       [solver_get_parameters 5%nat;
        comm_all_reduce 7%nat [2%nat; 4%nat] false true;
        solver_update 5%nat]).
Proof.
  destruct (solver_update_after_all_reduce Fake.text Fake.fw Fake.gpu0
              (Fake.world Fake.mpi [])
              (__init__ Fake.text Fake.fw Fake.gpu0 (Fake.world Fake.mpi [])).2
              Fake.connected 5%nat None None (Fake.world Fake.mpi []) eq_refl)
    as [_ Hmany].
  destruct (Hmany eq_refl) as (c & Hc & Hok & _).
  injection Hc as <-.
  exact (Hok Fake.parameters Fake.mpi Fake.mpi eq_refl eq_refl).
Defined.

Lemma bind_inv {St A B} (m : SE St A) (k : A -> SE St B) (s s' : St) (b : B) :
  SE.bind m k s = (Ok b, s') ->
  exists a s1, m s = (Ok a, s1) /\ k a s1 = (Ok b, s').
Proof.
  unfold SE.bind. destruct (m s) as [[a|e] s1]; [eauto | discriminate].
Qed.

(** C5.  For a wrapper built by [__init__] over a positive number of
    processes: the default packing size is [2 << 20 = 2097152];
    [get_all_reduce_callback] returns [None], without calling the
    framework, when [n_procs == 1]; otherwise it reads the registered
    parameters and returns what [comm.all_reduce_callback] answers for the
    list of their [grad] and the packing size; so a returned value is
    [None] if and only if [n_procs == 1]. *)
Theorem callback_none_iff_single_process {S : Type} (text : Text)
    (fw : Framework S)
    (ctx : Context) (w0 w1 : World S) (self : CommunicatorWrapper)
    (packing_size : option Z) (w : World S) :
  __init__ text fw ctx w0 = (Ok self, w1) ->
  1 <= n_procs self ->
  let size := default default_packing_size packing_size in
  default_packing_size = 2097152 /\
  (n_procs self = 1 ->
     get_all_reduce_callback fw self packing_size w = (Ok None, w)) /\
  (n_procs self <> 1 ->
     exists c,
       comm self = Some c /\
       forall ps s1 cb s2,
         fw nn_get_parameters (nnabla w) = (Ok ps, s1) ->
         fw (comm_all_reduce_callback c (grad_of_every_value ps) size) s1 = (Ok cb, s2) ->
         get_all_reduce_callback fw self packing_size w
           = (Ok (Some cb),
              advance w s2 [nn_get_parameters;
                            comm_all_reduce_callback c (grad_of_every_value ps) size])) /\
  (forall r w',
      get_all_reduce_callback fw self packing_size w = (Ok r, w') ->
      (r = None <-> n_procs self = 1)).
Proof.
  intros Hinit Hpos size. split; [reflexivity|].
  assert (Hsingle : n_procs self = 1 ->
            get_all_reduce_callback fw self packing_size w = (Ok None, w)).
  { intros Hn. unfold get_all_reduce_callback. now rewrite Hn. }
  split; [exact Hsingle|]. split.
  - intros Hne. destruct (init_has_communicator _ fw _ _ _ _ Hinit Hne) as [c Hc].
    exists c. split; [exact Hc|]. intros ps s1 cb s2 Hps Hcb. pose proof (grads_every_value ps) as Hg. rewrite <- Hg in *. clear Hg.
    unfold get_all_reduce_callback. fold size.
    destruct (Z.ltb_spec 1 (n_procs self)) as [_|]; [|lia].
    pose proof (extern_ok fw _ w _ _ Hps) as E1.
    pose proof (extern_ok fw (comm_all_reduce_callback c (grads ps) size)
                  (advance w s1 [nn_get_parameters]) cb s2 Hcb) as E2.
    rewrite advance_advance in E2.
    rewrite (bind_ok _ _ _ _ _ E1).
    rewrite (bind_ok _ _ _ _ _ (the_comm_ok _ _ _ _ Hc)).
    now rewrite (bind_ok _ _ _ _ _ E2).
  - intros r w' Hrun. split.
    + intros ->. destruct (Z.eq_dec (n_procs self) 1) as [|Hne]; [assumption|].
      exfalso. unfold get_all_reduce_callback in Hrun.
      destruct (Z.ltb_spec 1 (n_procs self)) as [_|]; [|lia].
      apply bind_inv in Hrun as (ps & wa & _ & Hrun).
      apply bind_inv in Hrun as (c & wb & _ & Hrun).
      apply bind_inv in Hrun as (cb & wc & _ & Hrun).
      discriminate Hrun.
    + intros Hn. rewrite (Hsingle Hn) in Hrun. now inversion Hrun.
Qed.

Lemma callback_witness :
  get_all_reduce_callback Fake.fw Fake.connected None (Fake.world Fake.mpi [])
  = (Ok (Some 9%nat),
     advance (Fake.world Fake.mpi []) Fake.mpi
       [nn_get_parameters;
        comm_all_reduce_callback 7%nat [2%nat; 4%nat] 2097152]).
Proof.
  assert (Hpos : 1 <= n_procs Fake.connected) by discriminate.
  assert (Hne : n_procs Fake.connected <> 1) by discriminate.
  destruct (callback_none_iff_single_process Fake.text Fake.fw Fake.gpu0
              (Fake.world Fake.mpi [])
              (__init__ Fake.text Fake.fw Fake.gpu0 (Fake.world Fake.mpi [])).2
              Fake.connected None (Fake.world Fake.mpi []) eq_refl Hpos)
    as (_ & _ & Hmany & _).
  destruct (Hmany Hne) as (c & Hc & Hok).
  injection Hc as <-.
  exact (Hok Fake.parameters Fake.mpi 9%nat Fake.mpi eq_refl eq_refl).
Defined.

(** C6.  For every list of solvers and every choice of the flags,
    [all_reduced_solver_update_all] is [all_reduced_solver_update] applied
    to each solver in turn, in the order given, with the same [division]
    and [inplace] for every solver. *)
Theorem update_all_is_one_at_a_time {S : Type} (fw : Framework S)
    (self : CommunicatorWrapper) (solvers : list Solver)
    (division inplace : option bool) (w : World S) :
  all_reduced_solver_update_all fw self solvers division inplace w
    = one_at_a_time fw self solvers division inplace w.
Proof.
  unfold all_reduced_solver_update_all.
  revert w. induction solvers as [|solver rest IH]; intros w; [reflexivity|].
  rewrite for_in_cons. simpl one_at_a_time. unfold SE.bind.
  assert (Hsame :
    all_reduced_solver_update fw self solver
      (Some (default false division)) (Some (default true inplace)) w
    = all_reduced_solver_update fw self solver division inplace w)
    by reflexivity.
  rewrite Hsame.
  destruct (all_reduced_solver_update fw self solver division inplace w)
    as [[[]|e] w1]; [apply IH | reflexivity].
Qed.

Example update_all_two_solvers :
  calls (all_reduced_solver_update_all Fake.fw Fake.connected [5%nat; 6%nat]
           (Some true) None (Fake.world Fake.mpi [])).2
  = [solver_get_parameters 5%nat;
     comm_all_reduce 7%nat [2%nat; 4%nat] true true; solver_update 5%nat;
     solver_get_parameters 6%nat;
     comm_all_reduce 7%nat [2%nat; 4%nat] true true; solver_update 6%nat].
Proof. reflexivity. Qed.

End MethodClaims.

(** ** [init_nnabla]: claim C10 *)

Module InitNnablaClaims.
Import Py Nnabla Comm.
Export MethodClaims.

Section Logger.
Context {S : Type} (special_attr : string -> bool) (text : Text)
  (fw : Framework S).

Lemma same_logger_trans (w1 w2 w3 : World S) :
  same_logger w1 w2 -> same_logger w2 w3 -> same_logger w1 w3.
Proof. unfold same_logger. intros [-> ->] [-> ->]. auto. Qed.

Lemma on_heap_logger {A} (m : SE Heap A) (w w' : World S) (r : Outcome A) :
  on_heap m w = (r, w') -> same_logger w w'.
Proof. rewrite on_heap_run. intros [= _ <-]. now split. Qed.

Lemma extern_logger (c : Call) (w w' : World S) (r : Outcome (answer c)) :
  extern fw c w = (r, w') -> same_logger w w'.
Proof. rewrite extern_run. intros [= _ <-]. now split. Qed.

Lemma set_if_given_logger (conf : nat) (name : string) (value : Value)
    (w w' : World S) (r : Outcome unit) :
  set_if_given conf name value w = (r, w') -> same_logger w w'.
Proof.
  unfold set_if_given.
  destruct value; try apply on_heap_logger. intros [= _ <-]. now split.
Qed.

Lemma try_statement_logger (ctx : Context) (w w1 : World S)
    (r : Outcome (Z * Z * Z * option Nnabla.Comm)) :
  SE.try_except (init_try fw ctx) init_except w = (r, w1) -> same_logger w w1.
Proof.
  destruct (try_statement_outcome fw ctx w) as (r0 & s' & cs & _ & ->).
  destruct r0 as [a|e]; [intros [= _ <-]; now split|].
  destruct (is_Exception (exc_class e)); intros [= _ <-]; now split.
Qed.

(** [__init__] leaves the level alone and logs one line. *)
Lemma init_logger (ctx : Context) (w w' : World S) (self : CommunicatorWrapper) :
  __init__ text fw ctx w = (Ok self, w') ->
  logger_level w' = logger_level w /\
  logger_calls w' =
    logger_calls w
      ++ [info (using_gpu_message (device_id (Comm.ctx self)) (rank self))].
Proof.
  intros Hinit.
  destruct (init_inv _ fw _ _ _ _ Hinit)
    as (w1 & d & b & bs & s2 & Htry & _ & _ & Hctx & _ & ->).
  destruct (try_statement_logger _ _ _ _ Htry) as [Hl Hc].
  rewrite Hctx. simpl. now rewrite Hl, Hc.
Qed.

End Logger.

(** C10.  When [init_nnabla] returns a wrapper, it has called
    [logger.setLevel(logging.ERROR)] if and only if the wrapper's rank is
    greater than 0: the logger's calls are the line [__init__] logs,
    followed by that [setLevel] exactly when [rank > 0], and the level is
    [ERROR] when [rank > 0] and unchanged otherwise; in the single-process
    fallback the rank is 0 and the level is unchanged. *)
Theorem init_nnabla_quiets_other_ranks {S : Type} (special_attr : string -> bool)
    (text : Text)
    (fw : Framework S) (conf : option nat) (ext_name dev type_config : Value)
    (w w' : World S) (self : CommunicatorWrapper) :
  init_nnabla special_attr text fw conf ext_name dev type_config w = (Ok self, w') ->
  logger_level w' = (if 0 <? rank self then ERROR else logger_level w) /\
  logger_calls w' =
    logger_calls w
      ++ info (using_gpu_message (device_id (Comm.ctx self)) (rank self))
         :: (if 0 <? rank self then [setLevel ERROR] else []) /\
  (comm self = None -> rank self = 0 /\ logger_level w' = logger_level w).
Proof.
  intros Hrun. unfold init_nnabla in Hrun.
  apply bind_inv in Hrun as (loc & wa & Hconf & Hrun).
  apply bind_inv in Hrun as ([] & wb & Hset1 & Hrun).
  apply bind_inv in Hrun as ([] & wc & Hset2 & Hrun).
  apply bind_inv in Hrun as ([] & wd & Hset3 & Hrun).
  apply bind_inv in Hrun as (v1 & we & Hget1 & Hrun).
  apply bind_inv in Hrun as (v2 & wf & Hget2 & Hrun).
  apply bind_inv in Hrun as (v3 & wg & Hget3 & Hrun).
  apply bind_inv in Hrun as (ctx & wh & Hctx & Hrun).
  apply bind_inv in Hrun as (built & wi & Hinit & Hrun).
  apply bind_inv in Hrun as ([] & wj & Hdefault & Hrun).
  apply bind_inv in Hrun as ([] & wk & Hlevel & Hrun).
  injection Hrun as -> ->.
  assert (Ha : same_logger w wa).
  { destruct conf; [injection Hconf as _ <-; now split|].
    now apply on_heap_logger in Hconf. }
  apply set_if_given_logger in Hset1, Hset2, Hset3.
  apply on_heap_logger in Hget1, Hget2, Hget3.
  apply extern_logger in Hctx. apply extern_logger in Hdefault.
  assert (Hpre : same_logger w wh).
  { repeat (eapply same_logger_trans; [eassumption|]). now split. }
  destruct Hpre as [Hl Hc]. destruct Hdefault as [Hl' Hc'].
  destruct (init_logger _ fw _ _ _ _ Hinit) as [Hli Hci].
  assert (Hfinal :
    logger_level w' = (if 0 <? rank self then ERROR else logger_level w) /\
    logger_calls w' =
      logger_calls w
        ++ info (using_gpu_message (device_id (Comm.ctx self)) (rank self))
           :: (if 0 <? rank self then [setLevel ERROR] else [])).
  { destruct (0 <? rank self).
    - injection Hlevel as <-. simpl. rewrite Hc', Hci, Hc.
      split; [reflexivity|]. now rewrite <- app_assoc.
    - injection Hlevel as <-. rewrite Hl', Hli, Hl, Hc', Hci, Hc. now split. }
  destruct Hfinal as [Hlev Hcalls]. split; [exact Hlev|]. split; [exact Hcalls|].
  intros Hnone.
  destruct (init_invariant _ fw _ _ _ _ Hinit Hnone) as (_ & Hr & _).
  split; [exact Hr|]. now rewrite Hlev, Hr.
Qed.

Lemma init_nnabla_witness :
  logger_level
    (init_nnabla AttrDict.cpython Fake.text Fake.fw None (VStr "cudnn") (VStr "0")
       (VStr "float") (Fake.world Fake.mpi [])).2 = ERROR /\
  logger_level
    (init_nnabla AttrDict.cpython Fake.text Fake.fw None (VStr "cudnn") (VStr "0")
       (VStr "float") (Fake.world None [])).2 = 20.
Proof.
  assert (Hmpi :
    init_nnabla AttrDict.cpython Fake.text Fake.fw None (VStr "cudnn") (VStr "0")
      (VStr "float") (Fake.world Fake.mpi [])
    = (Ok Fake.connected,
       (init_nnabla AttrDict.cpython Fake.text Fake.fw None (VStr "cudnn") (VStr "0")
          (VStr "float") (Fake.world Fake.mpi [])).2))
    by (vm_compute; reflexivity).
  assert (Hsingle :
    init_nnabla AttrDict.cpython Fake.text Fake.fw None (VStr "cudnn") (VStr "0")
      (VStr "float") (Fake.world None [])
    = (Ok Fake.single,
       (init_nnabla AttrDict.cpython Fake.text Fake.fw None (VStr "cudnn") (VStr "0")
          (VStr "float") (Fake.world None [])).2))
    by (vm_compute; reflexivity).
  split.
  - exact (proj1 (init_nnabla_quiets_other_ranks _ _ _ _ _ _ _ _ _ _ Hmpi)).
  - exact (proj1 (init_nnabla_quiets_other_ranks _ _ _ _ _ _ _ _ _ _ Hsingle)).
Defined.

End InitNnablaClaims.

(** ** More on [AttrDict]: assignment, nested access, what a read keeps *)

Module AttrDictExtras.
Import Py AttrDict Vocabulary.
Import AttrDictFacts.

Lemma is_dict_plain (h : Heap) (v : Value) : plain v -> is_dict h v = false.
Proof. destruct v; simpl; intros H; [reflexivity .. | contradiction | reflexivity]. Qed.

Lemma setattribute_ok (h : Heap) (self : nat) (o : DictObj) (name : string)
    (v : Value) :
  h !! self = Some o -> cls o = AttrDictClass -> name <> "_parent" ->
  setattribute self name v h =
    (Ok tt, <[self := mkDict (cls o) (dict_set (KStr name) v (items o)) (own_parent o)]> h).
Proof.
  intros Hs Hc Hn. unfold setattribute.
  rewrite (bind_ok _ _ _ _ _ (deref_ok _ _ _ Hs)), Hc.
  unfold __setattr__. rewrite decide_False by exact Hn.
  now rewrite (setitem_ok _ _ _ _ _ Hs), Hc.
Qed.

Lemma getattribute_class_attr (special : string -> bool) (h : Heap) (self : nat)
    (o : DictObj) (name : string) :
  h !! self = Some o -> cls o = AttrDictClass -> name <> "_parent" ->
  class_attr special name = true ->
  getattribute special self name h = (Ok (VClassAttr self name), h).
Proof.
  intros Hs Hc Hn Ha. unfold getattribute.
  rewrite (bind_ok _ _ _ _ _ (deref_ok _ _ _ Hs)), Hc, Ha.
  now rewrite decide_False.
Qed.

Lemma getattribute_parent (special : string -> bool) (h : Heap) (self : nat)
    (o : DictObj) :
  h !! self = Some o -> cls o = AttrDictClass ->
  getattribute special self "_parent" h = (Ok (_parent o), h).
Proof.
  intros Hs Hc. unfold getattribute.
  now rewrite (bind_ok _ _ _ _ _ (deref_ok _ _ _ Hs)), Hc.
Qed.

(** X1: assignment then read.  For an [AttrDict] [d], a name that normal
    attribute lookup does not resolve and a value [v] that is not a
    reference to an object: [d.name = v] succeeds, and reading [d.name]
    afterwards returns [v] and changes nothing; the assignment leaves the
    other keys of [d] and every other object as they were. *)
Theorem assigned_attribute_reads_back (special : string -> bool) (h : Heap)
    (self : nat) (o : DictObj) (name : string) (v : Value) :
  h !! self = Some o -> cls o = AttrDictClass ->
  name <> "_parent" -> class_attr special name = false -> plain v ->
  exists h1 o1,
    setattribute self name v h = (Ok tt, h1) /\
    getattribute special self name h1 = (Ok v, h1) /\
    h1 !! self = Some o1 /\
    dict_get (KStr name) (items o1) = Some v /\
    (forall k, k <> KStr name -> dict_get k (items o1) = dict_get k (items o)) /\
    (forall l, l <> self -> h1 !! l = h !! l) /\
    length h1 = length h.
Proof.
  intros Hs Hc Hn Ha Hv.
  set (o1 := mkDict (cls o) (dict_set (KStr name) v (items o)) (own_parent o)).
  assert (Hs1 : <[self := o1]> h !! self = Some o1).
  { apply list_lookup_insert_eq. now apply lookup_lt_Some with o. }
  assert (Hg : dict_get (KStr name) (items o1) = Some v) by apply dict_get_set_same.
  exists (<[self := o1]> h), o1.
  split; [now apply setattribute_ok|]. split.
  { rewrite (getattribute_falls_back special _ self o1) by assumption.
    apply getattr_value with o1; [exact Hs1 | exact Hg | now apply is_dict_plain]. }
  split; [exact Hs1|]. split; [exact Hg|].
  split; [intros k Hk; now apply dict_get_set_other|].
  split; [intros l Hl; now apply list_lookup_insert_ne | apply length_insert].
Qed.

Lemma assigned_attribute_witness :
  exists h1 o1,
    setattribute 0 "depth" (VInt 5) Fake.conf_heap = (Ok tt, h1) /\
    getattribute cpython 0 "depth" h1 = (Ok (VInt 5), h1) /\
    h1 !! 0%nat = Some o1 /\
    dict_get (KStr "depth") (items o1) = Some (VInt 5) /\
    (forall k, k <> KStr "depth" ->
       dict_get k (items o1) = dict_get k [(KStr "model", VRef 1)]) /\
    (forall l, l <> 0%nat -> h1 !! l = Fake.conf_heap !! l) /\
    length h1 = length Fake.conf_heap.
Proof.
  assert (Hname : "depth" <> "_parent") by discriminate.
  exact (assigned_attribute_reads_back cpython Fake.conf_heap 0
           (mkDict AttrDictClass [(KStr "model", VRef 1)] None) "depth" (VInt 5)
           eq_refl eq_refl Hname eq_refl I).
Defined.

(** X2: a name of the class stays shadowed.  For a name other than
    [_parent] that the class resolves (a method of [AttrDict] or of
    [dict]), [d.name = v] stores [v] under the key [name], yet reading
    [d.name] still gives the class's attribute, not [v]. *)
Theorem assigned_class_attribute_stays_shadowed (special : string -> bool)
    (h : Heap) (self : nat) (o : DictObj) (name : string) (v : Value) :
  h !! self = Some o -> cls o = AttrDictClass ->
  name <> "_parent" -> class_attr special name = true ->
  exists h1 o1,
    setattribute self name v h = (Ok tt, h1) /\
    h1 !! self = Some o1 /\
    dict_get (KStr name) (items o1) = Some v /\
    getattribute special self name h1 = (Ok (VClassAttr self name), h1).
Proof.
  intros Hs Hc Hn Ha.
  set (o1 := mkDict (cls o) (dict_set (KStr name) v (items o)) (own_parent o)).
  assert (Hs1 : <[self := o1]> h !! self = Some o1).
  { apply list_lookup_insert_eq. now apply lookup_lt_Some with o. }
  exists (<[self := o1]> h), o1.
  split; [now apply setattribute_ok|]. split; [exact Hs1|].
  split; [apply dict_get_set_same|].
  now apply getattribute_class_attr with o1.
Qed.

Lemma assigned_class_attribute_witness :
  exists h1 o1,
    setattribute 0 "update" (VInt 5) Fake.conf_heap = (Ok tt, h1) /\
    h1 !! 0%nat = Some o1 /\
    dict_get (KStr "update") (items o1) = Some (VInt 5) /\
    getattribute cpython 0 "update" h1 = (Ok (VClassAttr 0 "update"), h1).
Proof.
  assert (Hname : "update" <> "_parent") by discriminate.
  exact (assigned_class_attribute_stays_shadowed cpython Fake.conf_heap 0
           (mkDict AttrDictClass [(KStr "model", VRef 1)] None) "update" (VInt 5)
           eq_refl eq_refl Hname eq_refl).
Defined.

(** X3: [_parent] is not an item.  Assigning [d._parent = v] never creates
    or changes a key of [d]: the items are the same, and [d._parent] then
    reads [v]; before any assignment [d._parent] is the empty list of the
    class. *)
Theorem parent_assignment_is_not_an_item (special : string -> bool) (h : Heap)
    (self : nat) (o : DictObj) (v : Value) :
  h !! self = Some o -> cls o = AttrDictClass ->
  (own_parent o = None ->
     getattribute special self "_parent" h = (Ok (VStrList []), h)) /\
  exists h1 o1,
    setattribute self "_parent" v h = (Ok tt, h1) /\
    h1 !! self = Some o1 /\
    items o1 = items o /\ cls o1 = cls o /\
    getattribute special self "_parent" h1 = (Ok v, h1).
Proof.
  intros Hs Hc. split.
  { intros Hnone. rewrite (getattribute_parent special h self o Hs Hc).
    unfold _parent. now rewrite Hnone. }
  set (o1 := mkDict (cls o) (items o) (Some v)).
  assert (Hs1 : <[self := o1]> h !! self = Some o1).
  { apply list_lookup_insert_eq. now apply lookup_lt_Some with o. }
  exists (<[self := o1]> h), o1.
  split; [now apply set_parent_ok|]. split; [exact Hs1|].
  split; [reflexivity|]. split; [reflexivity|].
  now rewrite (getattribute_parent special _ self o1 Hs1 Hc).
Qed.

Lemma parent_assignment_witness :
  (own_parent (mkDict AttrDictClass [(KStr "model", VRef 1)] None) = None ->
     getattribute cpython 0 "_parent" Fake.conf_heap
       = (Ok (VStrList []), Fake.conf_heap)) /\
  exists h1 o1,
    setattribute 0 "_parent" (VStrList ["root"]) Fake.conf_heap = (Ok tt, h1) /\
    h1 !! 0%nat = Some o1 /\
    items o1 = [(KStr "model", VRef 1)] /\ cls o1 = AttrDictClass /\
    getattribute cpython 0 "_parent" h1 = (Ok (VStrList ["root"]), h1).
Proof.
  exact (parent_assignment_is_not_an_item cpython Fake.conf_heap 0
           (mkDict AttrDictClass [(KStr "model", VRef 1)] None)
           (VStrList ["root"]) eq_refl eq_refl).
Defined.

(** X4: the error names the whole chain.  Let [d] be an [AttrDict] with
    [_parent] path [p], [a] a key of [d] whose value is a dict without the
    key [b], both names left to [__getattr__].  Then [d.a] returns an
    [AttrDict] [c], and [c.b] raises [AttributeError] with the message for
    the chain [p + [a, b]] joined by dots, leaving the store as [d.a] left
    it. *)
Theorem nested_missing_attribute_names_the_chain (special : string -> bool)
    (h : Heap) (self m : nat) (o src : DictObj) (a b : string)
    (p : list string) :
  h !! self = Some o -> cls o = AttrDictClass -> _parent o = VStrList p ->
  a <> "_parent" -> class_attr special a = false ->
  b <> "_parent" -> class_attr special b = false ->
  dict_get (KStr a) (items o) = Some (VRef m) ->
  h !! m = Some src ->
  dict_get (KStr b) (items src) = None ->
  exists c h1,
    getattribute special self a h = (Ok (VRef c), h1) /\
    getattribute special c b h1 =
      (Raised (mkExc AttributeError (no_chain_message (join "." (p ++ [a; b])))),
       h1) /\
    contains (join "." (p ++ [a; b])) (no_chain_message (join "." (p ++ [a; b]))).
Proof.
  intros Hs Hc Hp Ha Haa Hb Hbb Hget Hm Hmiss.
  set (h1 := <[self := rebound o a (length h)]> h ++ [wrapped src p a]).
  assert (Hc1 : h1 !! length h = Some (wrapped src p a)).
  { unfold h1. apply list_lookup_middle. now rewrite length_insert. }
  exists (length h), h1. split.
  { rewrite (getattribute_falls_back special h self o) by assumption.
    now apply getattr_dict with m. }
  split; [|apply PyFacts.contains_middle].
  rewrite (getattribute_falls_back special h1 (length h) (wrapped src p a))
    by (assumption || reflexivity).
  replace (p ++ [a; b]) with ((p ++ [a]) ++ [b]) by now rewrite <- app_assoc.
  apply getattr_missing with (wrapped src p a); [exact Hc1 | exact Hmiss | reflexivity].
Qed.

Lemma nested_missing_attribute_witness :
  exists c h1,
    getattribute cpython 0 "model" Fake.conf_heap = (Ok (VRef c), h1) /\
    getattribute cpython c "width" h1 =
      (Raised (mkExc AttributeError
                 (no_chain_message (join "." ([] ++ ["model"; "width"])))), h1) /\
    contains (join "." ([] ++ ["model"; "width"]))
      (no_chain_message (join "." ([] ++ ["model"; "width"]))).
Proof.
  assert (Ha : "model" <> "_parent") by discriminate.
  assert (Hb : "width" <> "_parent") by discriminate.
  exact (nested_missing_attribute_names_the_chain cpython Fake.conf_heap 0 1
           (mkDict AttrDictClass [(KStr "model", VRef 1)] None)
           (mkDict PlainDict [(KStr "depth", VInt 3)] None) "model" "width" []
           eq_refl eq_refl eq_refl Ha eq_refl Hb eq_refl eq_refl eq_refl eq_refl).
Defined.

(** X5: what a read keeps.  For an [AttrDict] [d] whose [_parent] is a list
    of names, and any attribute name: reading [d.name] removes nothing from
    the store and adds at most one object; every object other than [d] is
    unchanged; [d] keeps its class, its [_parent] and its keys in their
    order; and when the read raises, the exception is an [AttributeError]
    and the store is exactly as before. *)
Theorem attribute_read_frame (special : string -> bool) (h h' : Heap)
    (self : nat) (o : DictObj) (name : string) (p : list string)
    (r : Outcome Value) :
  h !! self = Some o -> cls o = AttrDictClass -> _parent o = VStrList p ->
  getattribute special self name h = (r, h') ->
  (length h <= length h' <= S (length h))%nat /\
  (forall l, l <> self -> (l < length h)%nat -> h' !! l = h !! l) /\
  (exists o', h' !! self = Some o' /\ cls o' = cls o /\
              own_parent o' = own_parent o /\ (items o').*1 = (items o).*1) /\
  (forall e, r = Raised e -> exc_class e = AttributeError /\ h' = h).
Proof.
  intros Hs Hc Hp Hrun.
  assert (Hsame : h' = h -> (exists v, r = Ok v) \/
                    (exists e, r = Raised e /\ exc_class e = AttributeError) ->
    (length h <= length h' <= S (length h))%nat /\
    (forall l, l <> self -> (l < length h)%nat -> h' !! l = h !! l) /\
    (exists o', h' !! self = Some o' /\ cls o' = cls o /\
                own_parent o' = own_parent o /\ (items o').*1 = (items o).*1) /\
    (forall e, r = Raised e -> exc_class e = AttributeError /\ h' = h)).
  { intros -> Hr. split; [lia|]. split; [auto|]. split; [eauto|].
    intros e ->. destruct Hr as [[v Hv]|[e' [He' Hcls]]]; [discriminate|].
    injection He' as <-. auto. }
  destruct (decide (name = "_parent")) as [->|Hn].
  { rewrite (getattribute_parent special h self o Hs Hc) in Hrun.
    injection Hrun as <- <-. apply Hsame; eauto. }
  destruct (class_attr special name) eqn:Ha.
  { rewrite (getattribute_class_attr special h self o name Hs Hc Hn Ha) in Hrun.
    injection Hrun as <- <-. apply Hsame; eauto. }
  rewrite (getattribute_falls_back special h self o name Hs Hc Hn Ha) in Hrun.
  destruct (dict_get (KStr name) (items o)) as [v|] eqn:Hget.
  2:{ rewrite (getattr_missing h self o name p Hs Hget Hp) in Hrun.
      injection Hrun as <- <-. apply Hsame; eauto. }
  destruct (is_dict h v) eqn:Hd.
  2:{ rewrite (getattr_value h self o name v Hs Hget Hd) in Hrun.
      injection Hrun as <- <-. apply Hsame; eauto. }
  destruct v as [| | | | |m|]; try discriminate Hd.
  simpl in Hd. apply bool_decide_eq_true_1 in Hd as [src Hm].
  rewrite (getattr_dict h self m o src name p Hs Hget Hm Hp) in Hrun.
  injection Hrun as <- <-.
  pose proof (lookup_lt_Some _ _ _ Hs) as Hlt.
  split; [rewrite length_app, length_insert; simpl; lia|].
  split.
  { intros l Hl Hll. rewrite lookup_app_l by now rewrite length_insert.
    now apply list_lookup_insert_ne. }
  split; [|discriminate].
  exists (rebound o name (length h)).
  split; [now apply lookup_app_l_Some, list_lookup_insert_eq|].
  split; [reflexivity|]. split; [reflexivity|].
  now apply dict_set_keys with (VRef m).
Qed.

Lemma attribute_read_frame_witness :
  (length Fake.conf_heap
     <= length (getattribute cpython 0 "model" Fake.conf_heap).2
     <= S (length Fake.conf_heap))%nat /\
  (forall l, l <> 0%nat -> (l < length Fake.conf_heap)%nat ->
     (getattribute cpython 0 "model" Fake.conf_heap).2 !! l = Fake.conf_heap !! l).
Proof.
  destruct (attribute_read_frame cpython Fake.conf_heap
              (getattribute cpython 0 "model" Fake.conf_heap).2 0
              (mkDict AttrDictClass [(KStr "model", VRef 1)] None) "model" []
              (getattribute cpython 0 "model" Fake.conf_heap).1
              eq_refl eq_refl eq_refl eq_refl) as (H1 & H2 & _).
  exact (conj H1 H2).
Defined.

End AttrDictExtras.

(** ** More on the wrapper: what the constructor and the methods do to the
    world *)

Module WrapperExtras.
Import Py Nnabla Comm Vocabulary.
Import InitFacts MethodClaims.

Section Frames.
Context {S : Type} (fw : Framework S).

Lemma only_framework_refl (w : World S) : only_framework w w.
Proof. repeat split. Qed.

Lemma only_framework_trans (w1 w2 w3 : World S) :
  only_framework w1 w2 -> only_framework w2 w3 -> only_framework w1 w3.
Proof.
  unfold only_framework. intros (-> & -> & -> & ->) (-> & -> & -> & ->). auto.
Qed.

Lemma only_framework_advance (w : World S) (s' : S) (cs : list Call) :
  only_framework w (advance w s' cs).
Proof. repeat split. Qed.

Lemma quiet_run {A} (m : SE (World S) A) (w : World S) :
  quiet m -> only_framework w (m w).2.
Proof. intros [H]. apply H. Qed.

Lemma quiet_ret {A} (a : A) : quiet (SE.ret (St := World S) a).
Proof. constructor. intros w. apply only_framework_refl. Qed.

Lemma quiet_raise {A} (c : ExcClass) (msg : string) :
  quiet (SE.raise (St := World S) (A := A) c msg).
Proof. constructor. intros w. apply only_framework_refl. Qed.

Lemma quiet_extern (c : Call) : quiet (extern fw c).
Proof. constructor. intros w. rewrite extern_run. apply only_framework_advance. Qed.

Lemma quiet_bind {A B} (m : SE (World S) A) (k : A -> SE (World S) B) :
  quiet m -> (forall a, quiet (k a)) -> quiet (SE.bind m k).
Proof.
  intros [Hm] Hk. constructor. intros w. unfold SE.bind. specialize (Hm w).
  destruct (m w) as [[a|e] w1]; [|exact Hm].
  eapply only_framework_trans; [exact Hm | apply quiet_run, Hk].
Qed.

Lemma quiet_the_comm (self : CommunicatorWrapper) (method : string) :
  quiet (the_comm (S := S) self method).
Proof. unfold the_comm. destruct (comm self); [apply quiet_ret | apply quiet_raise]. Qed.

Lemma quiet_for_in {A} (xs : list A) (body : A -> SE (World S) unit) :
  (forall x, quiet (body x)) -> quiet (SE.for_in xs body).
Proof.
  intros Hb. constructor.
  induction xs as [|x xs IH]; intros w; [apply only_framework_refl|].
  rewrite for_in_cons.
  apply (quiet_run _ w (quiet_bind _ _ (Hb x) (fun _ => quiet_intro _ IH))).
Qed.

Lemma quiet_all_reduce (self : CommunicatorWrapper) (params : list NdArray)
    (division inplace : bool) :
  quiet (all_reduce fw self params division inplace).
Proof.
  unfold all_reduce. destruct (n_procs self =? 1); [apply quiet_ret|].
  apply quiet_bind; [apply quiet_the_comm | intros c; (match goal with |- quiet (extern _ ?c0) => exact (quiet_extern c0) end)].
Qed.

Lemma quiet_solver_update (self : CommunicatorWrapper) (solver : Solver)
    (division inplace : option bool) :
  quiet (all_reduced_solver_update fw self solver division inplace).
Proof.
  unfold all_reduced_solver_update. apply quiet_bind.
  - destruct (1 <? n_procs self); [|apply quiet_ret].
    apply quiet_bind; [(match goal with |- quiet (extern _ ?c0) => exact (quiet_extern c0) end) | intros ps; apply quiet_all_reduce].
  - intros _. (match goal with |- quiet (extern _ ?c0) => exact (quiet_extern c0) end).
Qed.

(** What the [try] statement of [__init__] leaves when the framework
    raises only exceptions derived from [Exception]. *)
Lemma try_statement_total (ctx : Context) (w : World S) :
  (forall c s e s', fw c s = (Raised e, s') -> is_Exception (exc_class e) = true) ->
  exists a w1 cs,
    SE.try_except (init_try fw ctx) init_except w = (Ok a, w1) /\
    made w w1 cs /\
    (forall name kw, get_extension_context name kw ∉ cs) /\
    heap w1 = heap w /\ logger_level w1 = logger_level w /\
    logger_calls w1 = logger_calls w.
Proof.
  intros Hexc.
  destruct (try_statement_outcome fw ctx w) as (r & s' & cs & Hout & Hrun).
  assert (Hcs : forall name kw, get_extension_context name kw ∉ cs).
  { intros name kw Hin.
    inversion Hout; subst;
      repeat (apply elem_of_cons in Hin as [Hin|Hin]; [discriminate|]);
      now apply elem_of_nil in Hin. }
  destruct r as [a|e].
  - exists a, (advance w s' cs), cs. repeat split; auto.
  - destruct (try_raised_by_framework fw _ _ _ _ _ Hout) as (c0 & s0 & Hraise).
    rewrite (Hexc _ _ _ _ Hraise) in Hrun.
    eexists _, _, cs. split; [exact Hrun|]. repeat split; auto.
Qed.

End Frames.

(** X6: [barrier].  For a wrapper built by [__init__]: when [n_procs == 1],
    [barrier] returns at once and leaves the world as it was; otherwise it
    is the single call [comm.barrier()] on the wrapped communicator, the
    only call added to the trace. *)
Theorem barrier_skips_or_forwards {S : Type} (text : Text)
    (fw : Framework S)
    (ctx : Context) (w0 w1 : World S) (self : CommunicatorWrapper) (w : World S) :
  __init__ text fw ctx w0 = (Ok self, w1) ->
  (n_procs self = 1 -> barrier fw self w = (Ok tt, w)) /\
  (n_procs self <> 1 ->
     exists c,
       comm self = Some c /\
       barrier fw self w = extern fw (comm_barrier c) w /\
       calls (barrier fw self w).2 = calls w ++ [comm_barrier c]).
Proof.
  intros Hinit. split.
  - intros Hn. unfold barrier. now rewrite Hn.
  - intros Hn. destruct (init_has_communicator _ fw _ _ _ _ Hinit Hn) as [c Hc].
    exists c. split; [exact Hc|].
    assert (Hrun : barrier fw self w = extern fw (comm_barrier c) w).
    { unfold barrier. destruct (Z.eqb_spec (n_procs self) 1) as [|_]; [contradiction|].
      now rewrite (bind_ok _ _ _ _ _ (the_comm_ok _ _ _ _ Hc)). }
    rewrite Hrun. split; [reflexivity|]. now rewrite extern_run.
Qed.

Lemma barrier_witness :
  (n_procs Fake.connected = 1 ->
     barrier Fake.fw Fake.connected (Fake.world Fake.mpi [])
       = (Ok tt, Fake.world Fake.mpi [])) /\
  (n_procs Fake.connected <> 1 ->
     exists c,
       comm Fake.connected = Some c /\
       barrier Fake.fw Fake.connected (Fake.world Fake.mpi [])
         = extern Fake.fw (comm_barrier c) (Fake.world Fake.mpi []) /\
       calls (barrier Fake.fw Fake.connected (Fake.world Fake.mpi [])).2
         = calls (Fake.world Fake.mpi []) ++ [comm_barrier c]).
Proof.
  exact (barrier_skips_or_forwards Fake.text Fake.fw Fake.gpu0 (Fake.world Fake.mpi [])
           (__init__ Fake.text Fake.fw Fake.gpu0 (Fake.world Fake.mpi [])).2
           Fake.connected (Fake.world Fake.mpi []) eq_refl).
Defined.

(** X7: the methods only talk to the framework.  Whatever the wrapper and
    the framework's answers, [all_reduce], [barrier],
    [all_reduced_solver_update], [all_reduced_solver_update_all] and
    [get_all_reduce_callback] print nothing, log nothing, leave the logger's
    level alone and do not touch the object store. *)
Theorem methods_only_talk_to_framework {S : Type} (fw : Framework S)
    (self : CommunicatorWrapper) (w : World S) :
  (forall params division inplace,
      only_framework w (all_reduce fw self params division inplace w).2) /\
  only_framework w (barrier fw self w).2 /\
  (forall solver division inplace,
      only_framework w
        (all_reduced_solver_update fw self solver division inplace w).2) /\
  (forall solvers division inplace,
      only_framework w
        (all_reduced_solver_update_all fw self solvers division inplace w).2) /\
  (forall packing_size,
      only_framework w (get_all_reduce_callback fw self packing_size w).2).
Proof.
  split; [intros; apply quiet_run, quiet_all_reduce|]. split.
  { apply quiet_run. unfold barrier. destruct (n_procs self =? 1); [apply quiet_ret|].
    apply quiet_bind; [apply quiet_the_comm | intros c; (match goal with |- quiet (extern _ ?c0) => exact (quiet_extern fw c0) end)]. }
  split; [intros; apply quiet_run, quiet_solver_update|]. split.
  { intros solvers division inplace. apply quiet_run.
    unfold all_reduced_solver_update_all.
    apply quiet_for_in. intros x. apply quiet_solver_update. }
  intros packing_size. apply quiet_run. unfold get_all_reduce_callback.
  destruct (1 <? n_procs self); [|apply quiet_ret].
  apply quiet_bind; [(match goal with |- quiet (extern _ ?c0) => exact (quiet_extern fw c0) end)|]. intros ps.
  apply quiet_bind; [apply quiet_the_comm|]. intros c.
  apply quiet_bind; [(match goal with |- quiet (extern _ ?c0) => exact (quiet_extern fw c0) end)|]. intros cb. apply quiet_ret.
Qed.

End WrapperExtras.

(** ** More on the constructor: failures, printing, the calls made *)

Module ConstructorExtras.
Import Py Nnabla Comm Vocabulary.
Import InitFacts WrapperExtras.

Lemma truncate_at_prefix (sep : ascii) (s : string) :
  exists rest, s = truncate_at sep s +:+ rest.
Proof.
  induction s as [|c r [rest IH]]; simpl; [now exists EmptyString|].
  destruct (Ascii.eqb c sep).
  - now exists (String c r).
  - exists rest. rewrite IH at 1. reflexivity.
Qed.

Lemma truncate_at_free (sep : ascii) (s pre post : string) :
  truncate_at sep s <> pre +:+ String sep post.
Proof.
  revert pre. induction s as [|c r IH]; intros pre; simpl.
  - destruct pre; discriminate.
  - destruct (Ascii.eqb_spec c sep) as [->|Hne].
    + destruct pre; discriminate.
    + destruct pre as [|c' pre]; simpl.
      * intros [= Hc _]. contradiction.
      * intros [= _ Hr]. now apply IH in Hr.
Qed.

Lemma fake_only_raises_exceptions (c : Call) (s : Fake.State) (e : PyExc)
    (s' : Fake.State) :
  Fake.fw c s = (Raised e, s') -> is_Exception (exc_class e) = true.
Proof.
  destruct c; simpl; try discriminate.
  destruct s; [discriminate|]. now intros [= <- _].
Defined.

(** X8: [create_float_context].  With an empty backend list it raises
    [IndexError] and calls nothing.  Otherwise it makes exactly one
    framework call, [get_extension_context(name, device_id=ctx.device_id)],
    where [name] is a prefix of the first backend entry and contains no
    [':'], and it returns or raises what that call does. *)
Theorem float_context_request {S : Type} (fw : Framework S) (ctx : Context)
    (w : World S) :
  (backend ctx = [] ->
     create_float_context fw ctx w
       = (Raised (mkExc IndexError "list index out of range"), w)) /\
  (forall b bs, backend ctx = b :: bs ->
     exists name rest,
       b = name +:+ rest /\
       (forall pre post, name <> pre +:+ String ":" post) /\
       create_float_context fw ctx w
         = extern fw (get_extension_context (VStr name)
                        [("device_id", VStr (device_id ctx))]) w /\
       calls (create_float_context fw ctx w).2
         = calls w ++ [get_extension_context (VStr name)
                         [("device_id", VStr (device_id ctx))]]).
Proof.
  split.
  - intros Hb. now rewrite create_float_context_run, Hb.
  - intros b bs Hb. destruct (truncate_at_prefix ":" b) as [rest Hrest].
    exists (truncate_at ":" b), rest. split; [exact Hrest|].
    split; [intros pre post; apply truncate_at_free|].
    rewrite create_float_context_run, Hb. split; [reflexivity|].
    now rewrite extern_run.
Qed.

(** X9: other exceptions pass through.  When building the communicator, or
    [comm.init()] after it, raises an exception that does not derive from
    [Exception] (a [KeyboardInterrupt], a [SystemExit]), [__init__] raises
    that exception: there is no fallback, nothing is printed or logged, and
    no extension context is requested. *)
Theorem init_lets_other_exceptions_through {S : Type} (text : Text)
    (fw : Framework S)
    (ctx : Context) (w : World S) (e : PyExc) (s1 : S) (cs : list Call) :
  (fw (MultiProcessDataParallelCommunicator ctx) (nnabla w) = (Raised e, s1) /\
   cs = [MultiProcessDataParallelCommunicator ctx]) \/
  (exists (c : Nnabla.Comm) s0,
     fw (MultiProcessDataParallelCommunicator ctx) (nnabla w) = (Ok c, s0) /\
     fw (comm_init c) s0 = (Raised e, s1) /\
     cs = [MultiProcessDataParallelCommunicator ctx; comm_init c]) ->
  is_Exception (exc_class e) = false ->
  __init__ text fw ctx w = (Raised e, advance w s1 cs).
Proof.
  intros Hcase Hbase.
  destruct (try_statement_outcome fw ctx w) as (r & s' & cs' & Hout & Hrun).
  rewrite init_run, Hrun.
  destruct Hcase as [[Hnew ->] | (c & s0 & Hnew & Hinit & ->)];
    inversion Hout; subst; same_call; now rewrite ?Hbase.
Qed.

Lemma init_interrupted_witness :
  __init__ Fake.text Faulty.fw Fake.gpu0 Faulty.world
    = (Raised (mkExc KeyboardInterrupt ""),
       advance Faulty.world tt [MultiProcessDataParallelCommunicator Fake.gpu0]).
Proof.
  exact (init_lets_other_exceptions_through Fake.text Faulty.fw Fake.gpu0 Faulty.world
           (mkExc KeyboardInterrupt "") tt
           [MultiProcessDataParallelCommunicator Fake.gpu0]
           (or_introl (conj eq_refl eq_refl)) eq_refl).
Defined.



(** X11: an empty backend list.  When [int] accepts [ctx.device_id] but
    [ctx.backend] is empty, and the framework raises only exceptions
    derived from [Exception], [__init__] raises [IndexError]: no extension
    context is requested and nothing is logged. *)
Theorem init_rejects_empty_backend {S : Type} (text : Text)
    (fw : Framework S)
    (ctx : Context) (w : World S) (d : Z) :
  parse_int text (device_id ctx) = Some d ->
  backend ctx = [] ->
  (forall c s e s', fw c s = (Raised e, s') -> is_Exception (exc_class e) = true) ->
  exists w1 cs,
    __init__ text fw ctx w = (Raised (mkExc IndexError "list index out of range"), w1) /\
    made w w1 cs /\
    (forall name kw, get_extension_context name kw ∉ cs) /\
    logger_calls w1 = logger_calls w.
Proof.
  intros Hd Hb Hexc.
  destruct (try_statement_total fw ctx w Hexc)
    as ([[[n r] l] c] & w1 & cs & Htry & Hmade & Hcs & _ & _ & Hlog).
  exists w1, cs. rewrite init_run, Htry. unfold int. rewrite Hd, Hb. auto.
Qed.

Lemma init_rejects_empty_backend_witness :
  exists w1 cs,
    __init__ Fake.text Fake.fw (mkContext [] "CpuCachedArray" "0") (Fake.world None [])
      = (Raised (mkExc IndexError "list index out of range"), w1) /\
    made (Fake.world None []) w1 cs /\
    (forall name kw, get_extension_context name kw ∉ cs) /\
    logger_calls w1 = logger_calls (Fake.world None []).
Proof.
  exact (init_rejects_empty_backend Fake.text Fake.fw (mkContext [] "CpuCachedArray" "0")
           (Fake.world None []) 0 eq_refl eq_refl
           fake_only_raises_exceptions).
Defined.

(** X12: what a completed [__init__] did.  The object store is untouched.
    With a communicator, nothing was printed and the framework calls were,
    in order: the constructor on the context as it was given (before the
    device id is moved), [init], the reads of [size], [rank] and
    [local_rank], and [get_extension_context] for the float context.
    Without one, the [try] block raised an exception [e] deriving from
    [Exception] after the calls [cs], which start with the constructor on
    the given context; exactly two lines were printed, the message of [e]
    and the notice, and the calls were [cs] followed by
    [get_extension_context]. *)
Theorem init_calls_and_prints {S : Type} (text : Text)
    (fw : Framework S) (ctx : Context)
    (w w' : World S) (self : CommunicatorWrapper) :
  __init__ text fw ctx w = (Ok self, w') ->
  heap w' = heap w /\
  exists b bs,
    backend ctx = b :: bs /\
    match comm self with
    | Some c =>
        (exists s',
            TryOutcome fw ctx (nnabla w)
              (Ok (n_procs self, rank self, local_rank self, Some c)) s'
              [MultiProcessDataParallelCommunicator ctx; comm_init c;
               comm_size c; comm_rank c; comm_local_rank c]) /\
        stdout w' = stdout w /\
        calls w' =
          calls w ++ [MultiProcessDataParallelCommunicator ctx; comm_init c;
                      comm_size c; comm_rank c; comm_local_rank c;
                      float_call b (device_id (Comm.ctx self))]
    | None =>
        exists e s' cs rest,
          TryOutcome fw ctx (nnabla w) (Raised e) s' cs /\
          cs = MultiProcessDataParallelCommunicator ctx :: rest /\
          is_Exception (exc_class e) = true /\
          stdout w' = stdout w ++ [exc_msg e; no_communicator_message] /\
          calls w' = calls w ++ cs ++ [float_call b (device_id (Comm.ctx self))]
    end.
Proof.
  intros Hinit.
  destruct (init_inv _ fw _ _ _ _ Hinit)
    as (w1 & d & b & bs & s2 & Htry & _ & Hb & Hctx & _ & ->).
  destruct (try_statement_outcome fw ctx w) as (r & s' & cs & Hout & Hrun).
  rewrite Hrun in Htry. rewrite Hctx. simpl device_id.
  destruct r as [a|e].
  - injection Htry as -> <-. split; [reflexivity|]. exists b, bs. split; [exact Hb|].
    pose proof Hout as Hout'.
    inversion Hout; subst.
    match goal with H : Some _ = comm self |- _ => rewrite <- H in Hout' end.
    split; [eauto|]. split; [reflexivity|]. simpl. now rewrite <- app_assoc.
  - destruct (is_Exception (exc_class e)) eqn:He; [|discriminate].
    injection Htry as Hn Hr Hl Hc <-. split; [reflexivity|]. exists b, bs.
    split; [exact Hb|]. rewrite <- Hc.
    assert (Hcs : exists rest, cs = MultiProcessDataParallelCommunicator ctx :: rest)
      by (inversion Hout; subst; eauto).
    destruct Hcs as [rest Hcs].
    exists e, s', cs, rest. split; [exact Hout|]. split; [exact Hcs|].
    split; [exact He|]. split; [reflexivity|].
    simpl. now rewrite <- app_assoc.
Qed.

Lemma init_calls_and_prints_witness :
  stdout (__init__ Fake.text Fake.fw Fake.gpu0 (Fake.world Fake.mpi [])).2 = [] /\
  calls (__init__ Fake.text Fake.fw Fake.gpu0 (Fake.world Fake.mpi [])).2 =
    [MultiProcessDataParallelCommunicator Fake.gpu0; comm_init 7%nat;
     comm_size 7%nat; comm_rank 7%nat; comm_local_rank 7%nat;
     float_call "cudnn:float" "1"].
Proof.
  destruct (init_calls_and_prints Fake.text Fake.fw Fake.gpu0 (Fake.world Fake.mpi [])
              (__init__ Fake.text Fake.fw Fake.gpu0 (Fake.world Fake.mpi [])).2
              Fake.connected eq_refl) as (_ & b & bs & Hb & _ & Hout & Hcalls).
  injection Hb as <- <-. exact (conj Hout Hcalls).
Defined.

End ConstructorExtras.

(** ** More on [all_reduced_solver_update_all] *)

Module SolverLoopExtras.
Import Py Nnabla Comm Vocabulary.
Import InitFacts MethodClaims.

Lemma for_in_app {S A} (body : A -> SE (World S) unit) (xs ys : list A)
    (w : World S) :
  SE.for_in (xs ++ ys) body w = (SE.for_in xs body ;; SE.for_in ys body) w.
Proof.
  revert w. induction xs as [|x xs IH]; intros w; [reflexivity|].
  simpl app. rewrite for_in_cons. unfold SE.bind. rewrite for_in_cons.
  unfold SE.bind. destruct (body x w) as [[[]|e] w1]; [|reflexivity].
  rewrite IH. reflexivity.
Qed.

Lemma advance_nothing {S} (w : World S) : advance w (nnabla w) [] = w.
Proof. destruct w. unfold advance. simpl. now rewrite app_nil_r. Qed.

Lemma solver_update_single {S} (fw : Framework S) (self : CommunicatorWrapper)
    (solver : Solver) (division inplace : option bool) (w : World S) :
  n_procs self <= 1 ->
  all_reduced_solver_update fw self solver division inplace w
    = extern fw (solver_update solver) w.
Proof.
  intros Hn. unfold all_reduced_solver_update.
  destruct (Z.ltb_spec 1 (n_procs self)) as [|_]; [lia | reflexivity].
Qed.

(** X13: the loop splits.  Updating the solvers [xs ++ ys] is updating [xs]
    and then, if that raised nothing, updating [ys], with the same flags. *)
Theorem update_all_splits {S : Type} (fw : Framework S)
    (self : CommunicatorWrapper) (xs ys : list Solver)
    (division inplace : option bool) (w : World S) :
  all_reduced_solver_update_all fw self (xs ++ ys) division inplace w
    = (all_reduced_solver_update_all fw self xs division inplace ;;
       all_reduced_solver_update_all fw self ys division inplace) w.
Proof. unfold all_reduced_solver_update_all. apply for_in_app. Qed.

(** X14: the loop stops at the first exception.  When the solvers [xs] are
    updated without an exception and the update of the next solver [s]
    raises, [all_reduced_solver_update_all] on [xs ++ s :: ys] raises that
    exception in the world the failed update left: the solvers [ys] are not
    touched. *)
Theorem update_all_stops_at_first_exception {S : Type} (fw : Framework S)
    (self : CommunicatorWrapper) (xs ys : list Solver) (s : Solver)
    (division inplace : option bool) (w w1 w2 : World S) (e : PyExc) :
  all_reduced_solver_update_all fw self xs division inplace w = (Ok tt, w1) ->
  all_reduced_solver_update fw self s division inplace w1 = (Raised e, w2) ->
  all_reduced_solver_update_all fw self (xs ++ s :: ys) division inplace w
    = (Raised e, w2).
Proof.
  intros Hxs Hs. unfold all_reduced_solver_update_all in *.
  rewrite for_in_app. rewrite (bind_ok _ _ _ _ _ Hxs).
  rewrite for_in_cons.
  assert (Hsame :
    all_reduced_solver_update fw self s
      (Some (default false division)) (Some (default true inplace)) w1
    = all_reduced_solver_update fw self s division inplace w1) by reflexivity.
  now rewrite (bind_raised _ _ _ _ _ (eq_trans Hsame Hs)).
Qed.

Lemma update_all_stops_witness :
  all_reduced_solver_update_all Faulty.fw Fake.single
    ([1%nat] ++ 13%nat :: [2%nat]) None None Faulty.world
  = (Raised (mkExc RuntimeError "diverged"),
     advance Faulty.world tt [solver_update 1%nat; solver_update 13%nat]).
Proof.
  exact (update_all_stops_at_first_exception Faulty.fw Fake.single
           [1%nat] [2%nat] 13%nat None None Faulty.world
           (advance Faulty.world tt [solver_update 1%nat])
           (advance Faulty.world tt [solver_update 1%nat; solver_update 13%nat])
           (mkExc RuntimeError "diverged") eq_refl eq_refl).
Defined.

(** X15: single-process training.  When [n_procs <= 1] and the solvers'
    updates do not raise, [all_reduced_solver_update_all] returns normally
    and the framework calls it makes are exactly [solver.update()] for each
    solver, in the order given: no parameters are read and nothing is
    all-reduced. *)
Theorem update_all_single_process {S : Type} (fw : Framework S)
    (self : CommunicatorWrapper) (solvers : list Solver)
    (division inplace : option bool) (w : World S) :
  n_procs self <= 1 ->
  (forall s st, exists st', fw (solver_update s) st = (Ok tt, st')) ->
  exists st',
    all_reduced_solver_update_all fw self solvers division inplace w
      = (Ok tt, advance w st' (updates solvers)).
Proof.
  intros Hn Hok. unfold all_reduced_solver_update_all.
  revert w. induction solvers as [|s rest IH]; intros w.
  - exists (nnabla w). simpl. now rewrite advance_nothing.
  - destruct (Hok s (nnabla w)) as [st1 H1].
    destruct (IH (advance w st1 [solver_update s])) as [st' Hrest].
    exists st'. rewrite for_in_cons.
    rewrite (bind_ok _ _ _ _ _
               (eq_trans (solver_update_single fw self s _ _ w Hn)
                  (extern_ok fw (solver_update s) w tt st1 H1))).
    rewrite Hrest, advance_advance. reflexivity.
Qed.

Lemma update_all_single_process_witness :
  exists st',
    all_reduced_solver_update_all Fake.fw Fake.single [5%nat; 6%nat] None None
      (Fake.world None [])
    = (Ok tt, advance (Fake.world None []) st' (updates [5%nat; 6%nat])).
Proof.
  assert (Hn : n_procs Fake.single <= 1) by discriminate.
  assert (Hok : forall s st, exists st',
             Fake.fw (solver_update s) st = (Ok tt, st'))
    by (intros s st; exists st; reflexivity).
  exact (update_all_single_process Fake.fw Fake.single [5%nat; 6%nat] None None
           (Fake.world None []) Hn Hok).
Defined.

End SolverLoopExtras.

(** ** More on [init_nnabla]: where the settings come from *)

Module InitNnablaExtras.
Import Py AttrDict Nnabla Comm Vocabulary.
Import InitFacts AttrDictExtras.

Lemma with_heap_same {S} (w : World S) : with_heap w (heap w) = w.
Proof. now destruct w. Qed.

Lemma assigned_cls (o : DictObj) (name : string) (v : Value) :
  cls (assigned o name v) = cls o /\ own_parent (assigned o name v) = own_parent o.
Proof. destruct v; now split. Qed.

Lemma assigned_same (o : DictObj) (name : string) (v : Value) :
  dict_get (KStr name) (items (assigned o name v)) = chosen v name o.
Proof. destruct v; simpl; try apply dict_get_set_same; reflexivity. Qed.

Lemma assigned_other (o : DictObj) (name name' : string) (v : Value) :
  name' <> name ->
  dict_get (KStr name') (items (assigned o name v)) = dict_get (KStr name') (items o).
Proof.
  intros Hne. destruct v; simpl; try reflexivity;
    apply dict_get_set_other; congruence.
Qed.

Lemma chosen_assigned_other (o : DictObj) (name name' : string) (v v' : Value) :
  name' <> name -> chosen v' name' (assigned o name v) = chosen v' name' o.
Proof.
  intros Hne. destruct v'; simpl; try reflexivity; now apply assigned_other.
Qed.

(** The settings the configured object holds. *)
Lemma configured_settings (o : DictObj) (e d t : Value) :
  dict_get (KStr "ext_name") (items (configured o e d t)) = chosen e "ext_name" o /\
  dict_get (KStr "device_id") (items (configured o e d t)) = chosen d "device_id" o /\
  dict_get (KStr "type_config") (items (configured o e d t))
    = chosen t "type_config" o /\
  cls (configured o e d t) = cls o /\
  own_parent (configured o e d t) = own_parent o.
Proof.
  unfold configured. split; [|split; [|split; [|split]]].
  - rewrite !assigned_other by discriminate. apply assigned_same.
  - rewrite assigned_other by discriminate. rewrite assigned_same.
    now apply chosen_assigned_other.
  - rewrite assigned_same. rewrite !chosen_assigned_other by discriminate.
    reflexivity.
  - now rewrite !(proj1 (assigned_cls _ _ _)).
  - now rewrite !(proj2 (assigned_cls _ _ _)).
Qed.

Section Settings.
Context {S : Type} (special_attr : string -> bool) (text : Text)
  (fw : Framework S).

Lemma set_if_given_run (loc : nat) (o : DictObj) (name : string) (v : Value)
    (w : World S) :
  heap w !! loc = Some o -> cls o = AttrDictClass -> name <> "_parent" ->
  set_if_given loc name v w
    = (Ok tt, with_heap w (<[loc := assigned o name v]> (heap w))).
Proof.
  intros Hs Hc Hn. unfold set_if_given.
  assert (Hset : on_heap (setattribute loc name v) w
                 = (Ok tt, with_heap w
                      (<[loc := mkDict (cls o) (dict_set (KStr name) v (items o))
                                  (own_parent o)]> (heap w)))).
  { rewrite on_heap_run. now rewrite (setattribute_ok _ _ _ _ v Hs Hc Hn). }
  destruct v; try exact Hset.
  simpl assigned. now rewrite (list_insert_id _ _ _ Hs), with_heap_same.
Qed.

Lemma read_setting (loc : nat) (o : DictObj) (name : string) (v : Value)
    (w : World S) :
  heap w !! loc = Some o -> cls o = AttrDictClass -> name <> "_parent" ->
  class_attr special_attr name = false ->
  dict_get (KStr name) (items o) = Some v -> plain v ->
  on_heap (getattribute special_attr loc name) w = (Ok v, w).
Proof.
  intros Hs Hc Hn Ha Hg Hv. rewrite on_heap_run.
  rewrite (AttrDictFacts.getattribute_falls_back special_attr _ loc o name Hs Hc Hn Ha).
  rewrite (AttrDictFacts.getattr_value _ loc o name v Hs Hg (is_dict_plain _ _ Hv)).
  simpl. now rewrite with_heap_same.
Qed.

Lemma read_missing_setting (loc : nat) (o : DictObj) (name : string)
    (p : list string) (w : World S) :
  heap w !! loc = Some o -> cls o = AttrDictClass -> name <> "_parent" ->
  class_attr special_attr name = false ->
  dict_get (KStr name) (items o) = None -> _parent o = VStrList p ->
  on_heap (getattribute special_attr loc name) w
    = (Raised (missing_setting p name), w).
Proof.
  intros Hs Hc Hn Ha Hg Hp. rewrite on_heap_run.
  rewrite (AttrDictFacts.getattribute_falls_back special_attr _ loc o name Hs Hc Hn Ha).
  rewrite (AttrDictFacts.getattr_missing _ loc o name p Hs Hg Hp).
  simpl. now rewrite with_heap_same.
Qed.

Lemma setting_name_is_free (name : string) :
  name = "ext_name" \/ name = "device_id" \/ name = "type_config" ->
  special_attr name = false ->
  name <> "_parent" /\ class_attr special_attr name = false.
Proof.
  intros Hname Hs. unfold class_attr, dict_attr. rewrite Hs.
  destruct Hname as [-> | [-> | ->]]; split; (discriminate || reflexivity).
Qed.

(** [init_nnabla] up to the reading of the settings: the configuration
    object is in place with the given settings assigned. *)
Lemma init_nnabla_configures (conf : option nat) (o : DictObj) (e d t : Value)
    (w : World S) :
  conf_object (heap w) conf = Some o -> cls o = AttrDictClass ->
  let loc := conf_location (heap w) conf in
  let w0 := with_heap w (<[loc := configured o e d t]> (conf_store (heap w) conf)) in
  heap w0 !! loc = Some (configured o e d t) /\
  init_nnabla special_attr text fw conf e d t w =
    (ext_name <- on_heap (getattribute special_attr loc "ext_name") ;;
     device_id <- on_heap (getattribute special_attr loc "device_id") ;;
     type_config <- on_heap (getattribute special_attr loc "type_config") ;;
     init_nnabla_with text fw ext_name device_id type_config) w0.
Proof.
  intros Ho Hc loc w0.
  set (w1 := with_heap w (conf_store (heap w) conf)).
  assert (H1 : heap w1 !! loc = Some o).
  { unfold w1, loc. destruct conf as [l|]; simpl in *; [exact Ho|].
    injection Ho as <-. now apply list_lookup_middle. }
  assert (Hfirst : match conf with
                   | Some l => SE.ret l
                   | None => on_heap new_empty
                   end w = (Ok loc, w1)).
  { unfold w1, loc. destruct conf as [l|]; simpl.
    - now rewrite with_heap_same.
    - now rewrite on_heap_run. }
  assert (Hlt : (loc < length (heap w1))%nat) by now apply lookup_lt_Some with o.
  split.
  { unfold w0. simpl. apply list_lookup_insert_eq. exact Hlt. }
  unfold init_nnabla. rewrite (bind_ok _ _ _ _ _ Hfirst).
  rewrite (bind_ok _ _ _ _ _
             (set_if_given_run loc o "ext_name" e w1 H1 Hc ltac:(discriminate))).
  set (o1 := assigned o "ext_name" e).
  set (w2 := with_heap w1 (<[loc := o1]> (heap w1))).
  assert (H2 : heap w2 !! loc = Some o1) by (apply list_lookup_insert_eq; exact Hlt).
  assert (Hc1 : cls o1 = AttrDictClass)
    by (unfold o1; now rewrite (proj1 (assigned_cls _ _ _))).
  rewrite (bind_ok _ _ _ _ _
             (set_if_given_run loc o1 "device_id" d w2 H2 Hc1 ltac:(discriminate))).
  set (o2 := assigned o1 "device_id" d).
  set (w3 := with_heap w2 (<[loc := o2]> (heap w2))).
  assert (H3 : heap w3 !! loc = Some o2).
  { apply list_lookup_insert_eq. unfold w2. simpl. now rewrite length_insert. }
  assert (Hc2 : cls o2 = AttrDictClass)
    by (unfold o2; now rewrite (proj1 (assigned_cls _ _ _))).
  rewrite (bind_ok _ _ _ _ _
             (set_if_given_run loc o2 "type_config" t w3 H3 Hc2 ltac:(discriminate))).
  assert (Hw : with_heap w3 (<[loc := assigned o2 "type_config" t]> (heap w3)) = w0).
  { unfold w0, w3, w2, w1, with_heap. simpl.
    now rewrite !list_insert_insert_eq. }
  rewrite Hw. reflexivity.
Qed.

End Settings.

(** X16: arguments override the configuration.  Let [conf] be [None] or an
    [AttrDict], and let each of the three settings, taken from the argument
    when it is given and from [conf] otherwise, be there and not be an
    object.  Then [init_nnabla] assigns the given arguments to [conf] (a
    new [AttrDict] when [conf] is [None]), makes no framework call before
    [get_extension_context(ext_name, device_id, type_config)] with exactly
    those three values, and goes on from its answer. *)
Theorem init_nnabla_uses_arguments_first {S : Type} (special_attr : string -> bool)
    (text : Text)
    (fw : Framework S) (conf : option nat) (o : DictObj) (e d t e' d' t' : Value)
    (w : World S) :
  conf_object (heap w) conf = Some o -> cls o = AttrDictClass ->
  special_attr "ext_name" = false -> special_attr "device_id" = false ->
  special_attr "type_config" = false ->
  chosen e "ext_name" o = Some e' -> chosen d "device_id" o = Some d' ->
  chosen t "type_config" o = Some t' ->
  plain e' -> plain d' -> plain t' ->
  let w0 := with_heap w (<[conf_location (heap w) conf := configured o e d t]>
                           (conf_store (heap w) conf)) in
  calls w0 = calls w /\
  init_nnabla special_attr text fw conf e d t w = init_nnabla_with text fw e' d' t' w0.
Proof.
  intros Ho Hc Hse Hsd Hst He Hd Ht Hpe Hpd Hpt w0.
  split; [reflexivity|].
  destruct (init_nnabla_configures special_attr text fw conf o e d t w Ho Hc) as [H0 Hrun].
  rewrite Hrun. clear Hrun. fold w0 in H0 |- *.
  destruct (configured_settings o e d t) as (Ge & Gd & Gt & Gc & _).
  rewrite He in Ge. rewrite Hd in Gd. rewrite Ht in Gt. rewrite Hc in Gc.
  destruct (setting_name_is_free special_attr "ext_name" (or_introl eq_refl) Hse)
    as [Ne Ae].
  destruct (setting_name_is_free special_attr "device_id"
              (or_intror (or_introl eq_refl)) Hsd) as [Nd Ad].
  destruct (setting_name_is_free special_attr "type_config"
              (or_intror (or_intror eq_refl)) Hst) as [Nt At].
  rewrite (bind_ok _ _ _ _ _ (read_setting special_attr _ _ _ _ w0 H0 Gc Ne Ae Ge Hpe)).
  rewrite (bind_ok _ _ _ _ _ (read_setting special_attr _ _ _ _ w0 H0 Gc Nd Ad Gd Hpd)).
  now rewrite (bind_ok _ _ _ _ _ (read_setting special_attr _ _ _ _ w0 H0 Gc Nt At Gt Hpt)).
Qed.

Lemma init_nnabla_uses_arguments_witness :
  init_nnabla cpython Fake.text Fake.fw None (VStr "cudnn") (VStr "0") (VStr "float")
    (Fake.world Fake.mpi [])
  = init_nnabla_with Fake.text Fake.fw (VStr "cudnn") (VStr "0") (VStr "float")
      (Fake.world Fake.mpi
         [mkDict AttrDictClass
            [(KStr "ext_name", VStr "cudnn"); (KStr "device_id", VStr "0");
             (KStr "type_config", VStr "float")] None]).
Proof.
  exact (proj2 (init_nnabla_uses_arguments_first cpython Fake.text Fake.fw None
                  (mkDict AttrDictClass [] None)
                  (VStr "cudnn") (VStr "0") (VStr "float")
                  (VStr "cudnn") (VStr "0") (VStr "float")
                  (Fake.world Fake.mpi [])
                  eq_refl eq_refl eq_refl eq_refl eq_refl eq_refl eq_refl eq_refl
                  I I I)).
Defined.

(** X17: a missing setting.  Let [conf] be [None] or an [AttrDict] whose
    [_parent] is a list of names [p].  If a setting is neither given as an
    argument nor a key of [conf] (the settings before it being there and
    not objects), [init_nnabla] raises the [AttributeError] of [AttrDict]
    naming the chain [p + [setting]], and has made no framework call. *)
Theorem init_nnabla_reports_missing_setting {S : Type}
    (special_attr : string -> bool) (text : Text)
    (fw : Framework S) (conf : option nat)
    (o : DictObj) (p : list string) (e d t : Value) (w : World S) :
  conf_object (heap w) conf = Some o -> cls o = AttrDictClass ->
  _parent o = VStrList p ->
  special_attr "ext_name" = false -> special_attr "device_id" = false ->
  special_attr "type_config" = false ->
  let w0 := with_heap w (<[conf_location (heap w) conf := configured o e d t]>
                           (conf_store (heap w) conf)) in
  calls w0 = calls w /\
  (chosen e "ext_name" o = None ->
     init_nnabla special_attr text fw conf e d t w
       = (Raised (missing_setting p "ext_name"), w0)) /\
  (forall e', chosen e "ext_name" o = Some e' -> plain e' ->
     chosen d "device_id" o = None ->
     init_nnabla special_attr text fw conf e d t w
       = (Raised (missing_setting p "device_id"), w0)) /\
  (forall e' d', chosen e "ext_name" o = Some e' -> plain e' ->
     chosen d "device_id" o = Some d' -> plain d' ->
     chosen t "type_config" o = None ->
     init_nnabla special_attr text fw conf e d t w
       = (Raised (missing_setting p "type_config"), w0)).
Proof.
  intros Ho Hc Hp Hse Hsd Hst w0.
  split; [reflexivity|].
  destruct (init_nnabla_configures special_attr text fw conf o e d t w Ho Hc) as [H0 Hrun].
  rewrite Hrun. clear Hrun. fold w0 in H0 |- *.
  destruct (configured_settings o e d t) as (Ge & Gd & Gt & Gc & Gp).
  rewrite Hc in Gc.
  assert (Hp3 : _parent (configured o e d t) = VStrList p)
    by (unfold _parent in *; now rewrite Gp).
  destruct (setting_name_is_free special_attr "ext_name" (or_introl eq_refl) Hse)
    as [Ne Ae].
  destruct (setting_name_is_free special_attr "device_id"
              (or_intror (or_introl eq_refl)) Hsd) as [Nd Ad].
  destruct (setting_name_is_free special_attr "type_config"
              (or_intror (or_intror eq_refl)) Hst) as [Nt At].
  split; [|split].
  - intros He. rewrite He in Ge.
    now rewrite (bind_raised _ _ _ _ _
                   (read_missing_setting special_attr _ _ _ p w0 H0 Gc Ne Ae Ge Hp3)).
  - intros e' He Hpe Hd. rewrite He in Ge. rewrite Hd in Gd.
    rewrite (bind_ok _ _ _ _ _ (read_setting special_attr _ _ _ _ w0 H0 Gc Ne Ae Ge Hpe)).
    now rewrite (bind_raised _ _ _ _ _
                   (read_missing_setting special_attr _ _ _ p w0 H0 Gc Nd Ad Gd Hp3)).
  - intros e' d' He Hpe Hd Hpd Ht. rewrite He in Ge. rewrite Hd in Gd. rewrite Ht in Gt.
    rewrite (bind_ok _ _ _ _ _ (read_setting special_attr _ _ _ _ w0 H0 Gc Ne Ae Ge Hpe)).
    rewrite (bind_ok _ _ _ _ _ (read_setting special_attr _ _ _ _ w0 H0 Gc Nd Ad Gd Hpd)).
    now rewrite (bind_raised _ _ _ _ _
                   (read_missing_setting special_attr _ _ _ p w0 H0 Gc Nt At Gt Hp3)).
Qed.

Lemma init_nnabla_missing_setting_witness :
  init_nnabla cpython Fake.text Fake.fw None (VStr "cudnn") VNone (VStr "float")
    (Fake.world Fake.mpi [])
  = (Raised (missing_setting [] "device_id"),
     Fake.world Fake.mpi
       [mkDict AttrDictClass
          [(KStr "ext_name", VStr "cudnn"); (KStr "type_config", VStr "float")]
          None]).
Proof.
  destruct (init_nnabla_reports_missing_setting cpython Fake.text Fake.fw None
              (mkDict AttrDictClass [] None) [] (VStr "cudnn") VNone (VStr "float")
              (Fake.world Fake.mpi [])
              eq_refl eq_refl eq_refl eq_refl eq_refl eq_refl)
    as (_ & _ & Hdev & _).
  exact (Hdev (VStr "cudnn") eq_refl I eq_refl).
Defined.

Lemma none_or_given (v : Value) : v = VNone \/ v <> VNone.
Proof. destruct v; (now left) || (right; discriminate). Qed.

(** X18: a plain dict is not a configuration.  When [conf] is a dict that is
    not an [AttrDict], [init_nnabla] raises [AttributeError] whatever the
    arguments, before any framework call, and leaves the world as it
    was. *)
Theorem init_nnabla_rejects_plain_dict {S : Type} (special_attr : string -> bool)
    (text : Text)
    (fw : Framework S) (loc : nat) (o : DictObj) (e d t : Value) (w : World S) :
  heap w !! loc = Some o -> cls o = PlainDict ->
  special_attr "ext_name" = false ->
  exists msg,
    init_nnabla special_attr text fw (Some loc) e d t w
      = (Raised (mkExc AttributeError msg), w).
Proof.
  intros Ho Hc Hs.
  assert (Hset : forall name v, v <> VNone ->
            set_if_given loc name v w
              = (Raised (mkExc AttributeError
                           ("'dict' object has no attribute '" +:+ name +:+ "'")), w)).
  { intros name v Hv. unfold set_if_given.
    assert (Hrun : on_heap (setattribute loc name v) w
              = (Raised (mkExc AttributeError
                           ("'dict' object has no attribute '" +:+ name +:+ "'")), w)).
    { rewrite on_heap_run. unfold setattribute.
      rewrite (bind_ok _ _ _ _ _ (AttrDictFacts.deref_ok _ _ _ Ho)), Hc.
      simpl. now rewrite with_heap_same. }
    destruct v; (contradiction || exact Hrun). }
  assert (Hskip : forall name, set_if_given loc name VNone w = (Ok tt, w))
    by reflexivity.
  unfold init_nnabla.
  assert (Hfirst : SE.ret (St := World S) loc w = (Ok loc, w)) by reflexivity.
  rewrite (bind_ok _ _ _ _ _ Hfirst).
  destruct (none_or_given e) as [-> | He].
  2:{ eexists. now rewrite (bind_raised _ _ _ _ _ (Hset "ext_name" e He)). }
  rewrite (bind_ok _ _ _ _ _ (Hskip "ext_name")).
  destruct (none_or_given d) as [-> | Hd].
  2:{ eexists. now rewrite (bind_raised _ _ _ _ _ (Hset "device_id" d Hd)). }
  rewrite (bind_ok _ _ _ _ _ (Hskip "device_id")).
  destruct (none_or_given t) as [-> | Ht].
  2:{ eexists. now rewrite (bind_raised _ _ _ _ _ (Hset "type_config" t Ht)). }
  rewrite (bind_ok _ _ _ _ _ (Hskip "type_config")).
  eexists. erewrite bind_raised; [reflexivity|].
  rewrite on_heap_run. unfold getattribute.
  rewrite (bind_ok _ _ _ _ _ (AttrDictFacts.deref_ok _ _ _ Ho)), Hc.
  unfold dict_attr. rewrite Hs. simpl. now rewrite with_heap_same.
Qed.

Lemma init_nnabla_rejects_plain_dict_witness :
  exists msg,
    init_nnabla cpython Fake.text Fake.fw (Some 1%nat) (VStr "cudnn") VNone VNone
      (Fake.world Fake.mpi Fake.conf_heap)
      = (Raised (mkExc AttributeError msg), Fake.world Fake.mpi Fake.conf_heap).
Proof.
  exact (init_nnabla_rejects_plain_dict cpython Fake.text Fake.fw 1
           (mkDict PlainDict [(KStr "depth", VInt 3)] None)
           (VStr "cudnn") VNone VNone (Fake.world Fake.mpi Fake.conf_heap)
           eq_refl eq_refl eq_refl).
Defined.

(** X19: the returned wrapper and the default context.  When [init_nnabla]
    returns a wrapper, that wrapper was built by [__init__] on the context
    the framework answered to [get_extension_context], and the last
    framework call is [nn.set_default_context] with the wrapper's context,
    the one whose device id includes the local rank. *)
Theorem init_nnabla_sets_default_context {S : Type} (special_attr : string -> bool)
    (text : Text)
    (fw : Framework S) (conf : option nat) (e d t : Value) (w w' : World S)
    (self : CommunicatorWrapper) :
  init_nnabla special_attr text fw conf e d t w = (Ok self, w') ->
  (exists ctx wa wb name kw s before,
      __init__ text fw ctx wa = (Ok self, wb) /\
      fw (get_extension_context name kw) s = (Ok ctx, nnabla wa) /\
      calls wa = before ++ [get_extension_context name kw]) /\
  exists before, calls w' = before ++ [nn_set_default_context (Comm.ctx self)].
Proof.
  intros Hrun. unfold init_nnabla in Hrun.
  apply MethodClaims.bind_inv in Hrun as (loc & wa & _ & Hrun).
  apply MethodClaims.bind_inv in Hrun as ([] & wb & _ & Hrun).
  apply MethodClaims.bind_inv in Hrun as ([] & wc & _ & Hrun).
  apply MethodClaims.bind_inv in Hrun as ([] & wd & _ & Hrun).
  apply MethodClaims.bind_inv in Hrun as (v1 & we & _ & Hrun).
  apply MethodClaims.bind_inv in Hrun as (v2 & wf & _ & Hrun).
  apply MethodClaims.bind_inv in Hrun as (v3 & wg & _ & Hrun).
  apply MethodClaims.bind_inv in Hrun as (ctx & wh & Hctx & Hrun).
  apply MethodClaims.bind_inv in Hrun as (built & wi & Hinit & Hrun).
  apply MethodClaims.bind_inv in Hrun as ([] & wj & Hdefault & Hrun).
  apply MethodClaims.bind_inv in Hrun as ([] & wk & Hlevel & Hrun).
  injection Hrun as -> ->.
  rewrite extern_run in Hctx.
  destruct (fw (get_extension_context v1 [("device_id", v2); ("type_config", v3)])
              (nnabla wg)) as [r s1] eqn:Hanswer.
  simpl in Hctx. injection Hctx as -> <-.
  rewrite extern_run in Hdefault. injection Hdefault as _ <-.
  split.
  - eexists ctx, _, wi, v1, [("device_id", v2); ("type_config", v3)], (nnabla wg),
      (calls wg).
    split; [exact Hinit|]. split; [exact Hanswer | reflexivity].
  - exists (calls wi).
    destruct (0 <? rank self); injection Hlevel as <-; reflexivity.
Qed.

Lemma init_nnabla_sets_default_context_witness :
  exists before,
    calls (init_nnabla cpython Fake.text Fake.fw None (VStr "cudnn") (VStr "0")
             (VStr "float") (Fake.world Fake.mpi [])).2
      = before ++ [nn_set_default_context Fake.gpu1].
Proof.
  assert (Hrun :
    init_nnabla cpython Fake.text Fake.fw None (VStr "cudnn") (VStr "0") (VStr "float")
      (Fake.world Fake.mpi [])
    = (Ok Fake.connected,
       (init_nnabla cpython Fake.text Fake.fw None (VStr "cudnn") (VStr "0")
          (VStr "float") (Fake.world Fake.mpi [])).2))
    by (vm_compute; reflexivity).
  exact (proj2 (init_nnabla_sets_default_context _ _ _ _ _ _ _ _ _ _ Hrun)).
Defined.

End InitNnablaExtras.

(** ** [AttrDict.dump_to_stdout] *)

Module DumpExtras.
Import Py AttrDict Nnabla Vocabulary AttrDictOutput.
Import InitFacts.

Lemma printed_nothing {S} (w : World S) : printed w [] = w.
Proof. destruct w. unfold printed. simpl. now rewrite app_nil_r. Qed.

Lemma printed_printed {S} (w : World S) (xs ys : list string) :
  printed (printed w xs) ys = printed w (xs ++ ys).
Proof. unfold printed. simpl. now rewrite app_assoc. Qed.

Lemma dump_loop {S} (repr : Heap -> Value -> string) (its : list (Key * Value))
    (w : World S) :
  SE.for_in its
    (fun kv => w' <- SE.get ;;
               print (format_key kv.1 +:+ ": " +:+ format_value repr (heap w') kv.2)) w
  = (Ok tt, printed w (map (item_line repr (heap w)) its)).
Proof.
  revert w. induction its as [|kv its IH]; intros w.
  - simpl. now rewrite printed_nothing.
  - rewrite MethodClaims.for_in_cons.
    assert (Hstep :
      (w' <- SE.get ;;
       print (format_key kv.1 +:+ ": " +:+ format_value repr (heap w') kv.2)) w
      = (Ok tt, printed w [item_line repr (heap w) kv])) by reflexivity.
    rewrite (bind_ok _ _ _ _ _ Hstep), IH, printed_printed. reflexivity.
Qed.

(** X20: [dump_to_stdout].  For a dict object [d], [dump_to_stdout] returns
    normally having printed the banner with [configs], then one line
    ["key: value"] per item in the order of insertion, then the closing
    banner; it changes nothing else: in particular, unlike attribute
    access, it does not replace nested dicts. *)
Theorem dump_prints_items_in_order {S : Type} (repr : Heap -> Value -> string)
    (self : nat) (o : DictObj) (w : World S) :
  heap w !! self = Some o ->
  dump_to_stdout repr self w
    = (Ok tt,
       printed w (banner_top :: map (item_line repr (heap w)) (items o)
                    ++ [banner_bottom])).
Proof.
  intros Ho. unfold dump_to_stdout.
  assert (Htop : print banner_top w = (Ok tt, printed w [banner_top])) by reflexivity.
  rewrite (bind_ok _ _ _ _ _ Htop).
  assert (Hself : on_heap (deref self) (printed w [banner_top])
                  = (Ok o, printed w [banner_top])).
  { rewrite on_heap_run. simpl heap. rewrite (AttrDictFacts.deref_ok _ _ _ Ho).
    simpl. now destruct w. }
  rewrite (bind_ok _ _ _ _ _ Hself).
  rewrite (bind_ok _ _ _ _ _ (dump_loop repr (items o) (printed w [banner_top]))).
  unfold print, SE.modify. now rewrite !printed_printed.
Qed.

Lemma dump_witness :
  dump_to_stdout (fun _ _ => "{'depth': 3}") 0 (Fake.world None Fake.conf_heap)
  = (Ok tt,
     printed (Fake.world None Fake.conf_heap)
       [banner_top; "model: {'depth': 3}"; banner_bottom]).
Proof.
  exact (dump_prints_items_in_order (fun _ _ => "{'depth': 3}") 0
           (mkDict AttrDictClass [(KStr "model", VRef 1)] None)
           (Fake.world None Fake.conf_heap) eq_refl).
Defined.

End DumpExtras.
